(** * A shallow embedding of parts of Fenjing

    The attribute/item rules of [fenjing/rules/get_attritem.py], the
    submitters of [fenjing/submitter.py] and two procedures of
    [fenjing/cli.py] ([is_form_has_response], [do_submit_cmdexec]). *)

From Stdlib Require Import ZArith Ascii String.
From stdpp Require Import base list gmap strings pretty.

Open Scope Z_scope.
Local Set Warnings "-register-all".

(* ------------------------------------------------------------------ *)
(** ** Targets: requirements and fragments

    In the source a "target" is a tuple whose first element is a tag
    constant of [fenjing/const.py]; requirements and candidate fragments
    share the representation.  Here it is an inductive type, one
    constructor per tag used by the rules. *)

(** The kind of one step of a chained access, [ATTRIBUTE] or [ITEM]. *)
Inductive tag : Type :=
  | TAG_ATTRIBUTE
  | TAG_ITEM.

Inductive target : Type :=
  | LITERAL (s : string)
  | WHITESPACE
  | UNSATISFIED
  | STRING (s : string)
  | INTEGER (n : Z)
  | ENCLOSE_UNDER (level : Z) (t : target)
  | WRAP (ts : list target)
  | ONEOF (alts : list (list target))
  | EXPRESSION (prec : Z) (ts : list target)
  | ATTRIBUTE (obj : target) (name : string)
  | ITEM (obj : target) (name : string)
  | FUNCTION_CALL (f : target) (args : list target)
  | CHAINED_ATTRIBUTE_ITEM (obj : target) (steps : list (tag * string))
  | FLASK_CONTEXT_VAR (name : string).

(** The tuple [(req_type, obj_req, req_name)] built from a step. *)
Definition access_target (req_type : tag) (obj_req : target) (req_name : string)
  : target :=
  match req_type with
  | TAG_ATTRIBUTE => ATTRIBUTE obj_req req_name
  | TAG_ITEM => ITEM obj_req req_name
  end.

(* ------------------------------------------------------------------ *)
(** ** Characters and strings *)

Definition code (c : ascii) : nat := nat_of_ascii c.

Definition in_range (lo hi c : ascii) : bool :=
  (code lo <=? code c)%nat && (code c <=? code hi)%nat.

(** The class [[A-Za-z_]]. *)
Definition is_word_start (c : ascii) : bool :=
  in_range "A" "Z" c || in_range "a" "z" c || bool_decide (c = "_"%char).

(** The class [[A-Za-z0-9_]]. *)
Definition is_word_char (c : ascii) : bool :=
  is_word_start c || in_range "0" "9" c.

(** [s.startswith(p)] *)
Fixpoint startswith (s p : string) {struct p} : bool :=
  match p with
  | EmptyString => true
  | String c p' =>
      match s with
      | String d s' => bool_decide (c = d) && startswith s' p'
      | EmptyString => false
      end
  end.

(** [sub in s] *)
Fixpoint str_in (sub s : string) : bool :=
  startswith s sub ||
  match s with
  | EmptyString => false
  | String _ s' => str_in sub s'
  end.

(** [s[n:]] *)
Fixpoint str_drop (n : nat) (s : string) : string :=
  match n, s with
  | O, _ => s
  | S _, EmptyString => EmptyString
  | S n', String _ s' => str_drop n' s'
  end.

(** [s[:n]] *)
Fixpoint str_take (n : nat) (s : string) : string :=
  match n, s with
  | O, _ => EmptyString
  | S _, EmptyString => EmptyString
  | S n', String c s' => String c (str_take n' s')
  end.

(* ------------------------------------------------------------------ *)
(** ** [re.match("[A-Za-z_]([A-Za-z0-9_]+)?", s)]

    [re.match] anchors the pattern at the start of [s] only.  The result
    is the length of the (greedy) match, [None] when there is none. *)

Fixpoint span_word (s : string) : nat :=
  match s with
  | String c s' => if is_word_char c then S (span_word s') else O
  | EmptyString => O
  end.

Definition re_match_ident (s : string) : option nat :=
  match s with
  | String c s' =>
      if is_word_start c then
        match span_word s' with
        | O => Some 1%nat          (* the optional group is skipped *)
        | k => Some (S k)
        end
      else None
  | EmptyString => None
  end.

(** What the spec calls a valid dotted-access name: the WHOLE name has
    the form [[A-Za-z_][A-Za-z0-9_]*]. *)
Definition is_identifier (s : string) : bool :=
  match s with
  | String c s' => is_word_start c && bool_decide (span_word s' = String.length s')
  | EmptyString => false
  end.

(* ------------------------------------------------------------------ *)
(** ** [targets_from_pattern] *)

(** A mapping value: a list is spliced into the result, any other
    target is appended as one element. *)
Inductive pattern_value : Type :=
  | PV_ONE (t : target)
  | PV_LIST (ts : list target).

Definition pv_targets (v : pattern_value) : list target :=
  match v with
  | PV_ONE t => [t]
  | PV_LIST ts => ts
  end.

(** The first key of the mapping (in insertion order) that starts [s]. *)
Fixpoint match_key (mapping : list (string * pattern_value)) (s : string)
  : option (string * pattern_value) :=
  match mapping with
  | [] => None
  | (k, v) :: rest =>
      if bool_decide (k <> EmptyString) && startswith s k then Some (k, v)
      else match_key rest s
  end.

Definition flush (buf : string) : list target :=
  match buf with
  | EmptyString => []
  | _ => [LITERAL buf]
  end.

Fixpoint tfp_go (fuel : nat) (mapping : list (string * pattern_value))
    (buf s : string) : list target :=
  match fuel with
  | O => flush buf
  | S fuel' =>
      match s with
      | EmptyString => flush buf
      | String c s' =>
          match match_key mapping s with
          | Some (k, v) =>
              flush buf ++ pv_targets v
                ++ tfp_go fuel' mapping EmptyString (str_drop (String.length k) s)
          | None => tfp_go fuel' mapping (buf +:+ String c EmptyString) s'
          end
      end
  end.

(** Modelled from the spec: [targets_from_pattern] of
    [fenjing/rules_utils.py], which is not among the sources.  The
    pattern is split at the occurrences of the mapping's keys (leftmost
    occurrence first, keys tried in the mapping's order, as a regular
    expression alternation of the keys would); each key becomes the
    fragment(s) it is mapped to, and each non-empty piece of text between
    them becomes a Literal-Text fragment. *)
Definition targets_from_pattern (pattern : string)
    (mapping : list (string * pattern_value)) : list target :=
  tfp_go (S (String.length pattern)) mapping EmptyString pattern.

(* ------------------------------------------------------------------ *)
(** ** The rules of [fenjing/rules/get_attritem.py]

    The precedence table of [fenjing/payload_gen.py] is a parameter: every
    statement below holds for every table. *)

Section Rules.

Variable precedence : string -> Z.

Definition gen_attribute_normal1 (obj_req : target) (attr_name : string)
  : list target :=
  match re_match_ident attr_name with
  | None => [UNSATISFIED]
  | Some _ =>
      let target_list :=
        [ENCLOSE_UNDER (precedence "attribute") obj_req;
         LITERAL ".";
         LITERAL attr_name] in
      [EXPRESSION (precedence "attribute") target_list]
  end.

Definition gen_attribute_normal2 (obj_req : target) (attr_name : string)
  : list target :=
  let target_list :=
    [ENCLOSE_UNDER (precedence "attribute") obj_req;
     LITERAL "[";
     STRING attr_name;
     LITERAL "]"] in
  [EXPRESSION (precedence "attribute") target_list].

Definition gen_attribute_attrfilter (obj_req : target) (attr_name : string)
  : list target :=
  let target_list :=
    [ENCLOSE_UNDER (precedence "filter") obj_req;
     LITERAL "|attr";
     WRAP [STRING attr_name]] in
  [EXPRESSION (precedence "filter") target_list].

Definition gen_attribute_attrfilter2 (obj_req : target) (attr_name : string)
  : list target :=
  let target_list :=
    [ENCLOSE_UNDER (precedence "filter") obj_req;
     LITERAL "|attr(";
     WHITESPACE;
     STRING attr_name;
     WHITESPACE;
     LITERAL ",)"] in
  [EXPRESSION (precedence "filter") target_list].

Definition gen_attribute_map (obj_req : target) (attr_name : string)
  : list target :=
  let target_list :=
    targets_from_pattern "( OBJ , ) | map( ATTR , NAME ) | first"
      [("OBJ", PV_ONE obj_req);
       (" ", PV_ONE WHITESPACE);
       ("ATTR", PV_ONE (STRING "attr"));
       ("NAME", PV_ONE (STRING attr_name))] in
  [EXPRESSION (precedence "filter_with_function_call") target_list].

(** The alternatives of [ANYTHING] and [FILTER_THAT], shared by the two
    chunk-reassembly rules. *)
Definition anything_value : pattern_value :=
  PV_LIST [ONEOF [[LITERAL "x"]; [INTEGER 0]; [INTEGER 1]]].

Definition filter_that_value : pattern_value :=
  PV_ONE (ONEOF [[LITERAL "last"]; [LITERAL "first"]]).

Definition gen_attribute_map3 (obj_req : target) (attr_name : string)
  : list target :=
  if (4 <? String.length attr_name)%nat then [UNSATISFIED] else
  let target_list :=
    targets_from_pattern
      "{ANYTHING:OBJ}|items|map(LAST)|map(*(ATTRNAME|batch(4)|map(JOIN)|list))|list|FILTER_THAT"
      [("ANYTHING", anything_value);
       ("OBJ", PV_ONE obj_req);
       ("LAST", PV_ONE (STRING "last"));
       ("FILTER_THAT", filter_that_value);
       (" ", PV_ONE WHITESPACE);
       ("4", PV_ONE (INTEGER 4));
       ("ATTRNAME",
         PV_ONE (ENCLOSE_UNDER (precedence "filter") (STRING ("attr" +:+ attr_name))));
       ("JOIN", PV_ONE (STRING "join"))] in
  [EXPRESSION (precedence "filter_with_function_call") target_list].

Definition gen_attribute_map4 (obj_req : target) (attr_name : string)
  : list target :=
  if (String.length attr_name <? 4)%nat then [UNSATISFIED] else
  let target_list :=
    targets_from_pattern
      "{ANYTHING:OBJ}|items|map(LAST)|map(*(ATTRNAME|batch(NAMELENGTH)|map(JOIN)|list|reverse))|list|FILTER_THAT"
      [("ANYTHING", anything_value);
       ("OBJ", PV_ONE obj_req);
       ("LAST", PV_ONE (STRING "last"));
       ("FILTER_THAT", filter_that_value);
       (" ", PV_ONE WHITESPACE);
       ("4", PV_ONE (INTEGER 4));
       ("ATTRNAME",
         PV_ONE (ENCLOSE_UNDER (precedence "filter") (STRING (attr_name +:+ "attr"))));
       ("NAMELENGTH", PV_ONE (INTEGER (Z.of_nat (String.length attr_name))));
       ("JOIN", PV_ONE (STRING "join"))] in
  [EXPRESSION (precedence "filter_with_function_call") target_list].

Definition gen_item_normal1 (obj_req : target) (item_name : string)
  : list target :=
  match re_match_ident item_name with
  | None => [UNSATISFIED]
  | Some _ =>
      let target_list :=
        [ENCLOSE_UNDER (precedence "item") obj_req;
         LITERAL ".";
         LITERAL item_name] in
      [EXPRESSION (precedence "item") target_list]
  end.

Definition gen_item_normal2 (obj_req : target) (item_name : string)
  : list target :=
  let target_list :=
    [ENCLOSE_UNDER (precedence "item") obj_req;
     LITERAL "[";
     STRING item_name;
     LITERAL "]"] in
  [EXPRESSION (precedence "item") target_list].

Definition gen_item_getfunc (obj_req : target) (item_name : string)
  : list target :=
  let target := FUNCTION_CALL (ATTRIBUTE obj_req "get") [STRING item_name] in
  [EXPRESSION (precedence "filter_with_function_call") [target]].

Definition gen_item_getfunc2 (obj_req : target) (item_name : string)
  : list target :=
  let target_head :=
    [ENCLOSE_UNDER (precedence "function_call") (ATTRIBUTE obj_req "get");
     LITERAL "(";
     WHITESPACE;
     STRING item_name;
     WHITESPACE] in
  let target :=
    ONEOF [target_head ++ [LITERAL ")"]; target_head ++ [LITERAL ",)"]] in
  [EXPRESSION (precedence "function_call") [target]].

Definition gen_item_dunderfunc (obj_req : target) (item_name : string)
  : list target :=
  let target :=
    FUNCTION_CALL (ATTRIBUTE obj_req "__getitem__") [STRING item_name] in
  [EXPRESSION (precedence "filter_with_function_call") [target]].

Definition gen_item_dunderfunc2 (obj_req : target) (item_name : string)
  : list target :=
  let target_head :=
    [ENCLOSE_UNDER (precedence "function_call") (ATTRIBUTE obj_req "__getitem__");
     LITERAL "(";
     WHITESPACE;
     STRING item_name;
     WHITESPACE] in
  let target :=
    ONEOF [target_head ++ [LITERAL ")"]; target_head ++ [LITERAL ",)"]] in
  [EXPRESSION (precedence "function_call") [target]].

Definition gen_class_attribute_literal (obj_req : target) (attr_name : string)
  : list target :=
  let class_target := ATTRIBUTE obj_req "__class__" in
  let target_list :=
    [ENCLOSE_UNDER (precedence "attribute") class_target;
     LITERAL ("." +:+ attr_name)] in
  [EXPRESSION (precedence "attribute") target_list].

Definition gen_class_attribute_attrfilter (obj_req : target) (attr_name : string)
  : list target :=
  let class_target := ATTRIBUTE obj_req "__class__" in
  let target_list :=
    [ENCLOSE_UNDER (precedence "filter") class_target;
     LITERAL "|attr";
     WRAP [STRING attr_name]] in
  [EXPRESSION (precedence "filter") target_list].

Definition gen_class_attribute_attrfilter2 (obj_req : target) (attr_name : string)
  : list target :=
  let class_target := ATTRIBUTE obj_req "__class__" in
  let target_list :=
    [ENCLOSE_UNDER (precedence "filter") class_target;
     LITERAL "|attr(";
     STRING attr_name;
     LITERAL ",)"] in
  [EXPRESSION (precedence "filter") target_list].

End Rules.

Definition gen_chained_attribute_item_normal (obj_req : target)
    (attr_item_req : list (tag * string)) : list target :=
  match attr_item_req with
  | [] => [obj_req]
  | (req_type, req_name) :: other_req =>
      let got_req := access_target req_type obj_req req_name in
      [CHAINED_ATTRIBUTE_ITEM got_req other_req]
  end.

(* ------------------------------------------------------------------ *)
(** ** Rendering a candidate *)

Section Render.

(** How the resolver renders an embedded requirement: the precedence of
    the candidate it picked and its text; [None] when it fails. *)
Variable sub : target -> option (Z * string).
(** The rendering chosen for a Whitespace-Marker. *)
Variable ws : string.

(** Modelled from the spec: the Enclose-If-Needed step of the resolver
    ([fenjing/payload_gen.py], not among the sources): "compare the
    embedded candidate's precedence against the required precedence;
    wrap in explicit grouping syntax only if lower". *)
Definition enclose (level sub_prec : Z) (s : string) : string :=
  if sub_prec <? level then "(" +:+ s +:+ ")" else s.

(** Modelled from the spec: the resolver's walk over a candidate
    ([fenjing/payload_gen.py], not among the sources).  Literal text is
    emitted as is, a Whitespace-Marker as [ws], Enclose-If-Needed as
    above, Ordered-Alternatives by the first alternative that renders,
    Wrapped-Arguments as a parenthesised comma-separated list, and any
    other target is an embedded requirement resolved by [sub]. *)
Fixpoint render (t : target) : option string :=
  match t with
  | LITERAL s => Some s
  | WHITESPACE => Some ws
  | UNSATISFIED => None
  | ENCLOSE_UNDER level r =>
      match sub r with
      | Some (p, s) => Some (enclose level p s)
      | None => None
      end
  | WRAP ts =>
      let fix go (l : list target) : option (list string) :=
        match l with
        | [] => Some []
        | x :: xs =>
            match render x, go xs with
            | Some a, Some b => Some (a :: b)
            | _, _ => None
            end
        end in
      match go ts with
      | Some parts => Some ("(" +:+ String.concat "," parts +:+ ")")
      | None => None
      end
  | ONEOF alts =>
      let fix go (l : list target) : option (list string) :=
        match l with
        | [] => Some []
        | x :: xs =>
            match render x, go xs with
            | Some a, Some b => Some (a :: b)
            | _, _ => None
            end
        end in
      let fix first (al : list (list target)) : option string :=
        match al with
        | [] => None
        | a :: rest =>
            match go a with
            | Some parts => Some (String.concat "" parts)
            | None => first rest
            end
        end in
      first alts
  | EXPRESSION _ ts =>
      let fix go (l : list target) : option (list string) :=
        match l with
        | [] => Some []
        | x :: xs =>
            match render x, go xs with
            | Some a, Some b => Some (a :: b)
            | _, _ => None
            end
        end in
      match go ts with
      | Some parts => Some (String.concat "" parts)
      | None => None
      end
  | _ =>
      match sub t with
      | Some (_, s) => Some s
      | None => None
      end
  end.

End Render.

(** The Enclose-If-Needed fragments of a target list, with the level
    each one requires; alternatives and wrapped arguments are searched,
    embedded requirements are not. *)
Fixpoint enclosures (t : target) : list (Z * target) :=
  match t with
  | ENCLOSE_UNDER level r => [(level, r)]
  | WRAP ts => (fix go l := match l with [] => [] | x :: xs => enclosures x ++ go xs end) ts
  | ONEOF alts =>
      (fix goa al := match al with
        | [] => []
        | a :: rest =>
            (fix go l := match l with [] => [] | x :: xs => enclosures x ++ go xs end) a
            ++ goa rest
        end) alts
  | _ => []
  end.

Definition enclosures_list (ts : list target) : list (Z * target) :=
  concat (map enclosures ts).

(** The Literal-Text fragments of a target list (alternatives, wrapped
    arguments and enclosed targets searched, embedded requirements not). *)
Fixpoint literals (t : target) : list string :=
  match t with
  | LITERAL s => [s]
  | ENCLOSE_UNDER _ r => literals r
  | WRAP ts => (fix go l := match l with [] => [] | x :: xs => literals x ++ go xs end) ts
  | ONEOF alts =>
      (fix goa al := match al with
        | [] => []
        | a :: rest =>
            (fix go l := match l with [] => [] | x :: xs => literals x ++ go xs end) a
            ++ goa rest
        end) alts
  | _ => []
  end.

(** The embedded requirements of a target list (the targets that are not
    fragments), searched as [literals] does. *)
Fixpoint requirements (t : target) : list target :=
  match t with
  | LITERAL _ | WHITESPACE | UNSATISFIED => []
  | ENCLOSE_UNDER _ r => requirements r
  | WRAP ts => (fix go l := match l with [] => [] | x :: xs => requirements x ++ go xs end) ts
  | ONEOF alts =>
      (fix goa al := match al with
        | [] => []
        | a :: rest =>
            (fix go l := match l with [] => [] | x :: xs => requirements x ++ go xs end) a
            ++ goa rest
        end) alts
  | _ => [t]
  end.

Definition literals_list (ts : list target) : list string := concat (map literals ts).
Definition requirements_list (ts : list target) : list target :=
  concat (map requirements ts).

(** The rules that embed their object sub-requirement through an
    Enclose-If-Needed fragment. *)
Definition object_enclosing_rules : list ((string -> Z) -> target -> string -> list target) :=
  [gen_attribute_normal1; gen_attribute_normal2;
   gen_attribute_attrfilter; gen_attribute_attrfilter2;
   gen_item_normal1; gen_item_normal2;
   gen_item_getfunc2; gen_item_dunderfunc2;
   gen_class_attribute_literal; gen_class_attribute_attrfilter;
   gen_class_attribute_attrfilter2].

(** Repeatedly applies [gen_chained_attribute_item_normal] to a chained
    requirement, as the resolver does, at most [fuel] times. *)
Fixpoint unfold_chained (fuel : nat) (t : target) : target :=
  match fuel with
  | O => t
  | S fuel' =>
      match t with
      | CHAINED_ATTRIBUTE_ITEM obj steps =>
          match gen_chained_attribute_item_normal obj steps with
          | [t'] => unfold_chained fuel' t'
          | _ => t
          end
      | _ => t
      end
  end.

Definition fold_steps (obj : target) (steps : list (tag * string)) : target :=
  fold_left (fun acc step => access_target step.1 acc step.2) steps obj.

(** A resolver for concrete runs: strings are quoted, integers printed,
    context variables written by name; all with the highest precedence. *)
Definition demo_sub (t : target) : option (Z * string) :=
  match t with
  | STRING s => Some (100, "'" +:+ s +:+ "'")
  | INTEGER n => Some (100, pretty n)
  | FLASK_CONTEXT_VAR n => Some (100, n)
  | _ => None
  end.

Definition prec_demo : string -> Z := fun _ => 0.

(* ------------------------------------------------------------------ *)
(** ** [fenjing/submitter.py] *)

(** [HTTPResponse(status_code, text)] *)
Record HTTPResponse : Type := mkHTTPResponse {
  status_code : Z;
  text : string
}.

(** [request.startswith(b"GET")] and friends: bytes are characters. *)
Fixpoint endswith (s p : string) : bool :=
  startswith s p && bool_decide (String.length s = String.length p) ||
  match s with
  | EmptyString => false
  | String _ s' => endswith s' p
  end.

(** [s.rfind(sep)]: the index of the last occurrence. *)
Fixpoint rfind (sep s : string) : option nat :=
  match s with
  | EmptyString => if startswith s sep then Some O else None
  | String _ s' =>
      match rfind sep s' with
      | Some k => Some (S k)
      | None => if startswith s sep then Some O else None
      end
  end.

(** [s.rpartition(sep)] *)
Definition rpartition (s sep : string) : string * string * string :=
  match rfind sep s with
  | None => (EmptyString, EmptyString, s)
  | Some i => (str_take i s, sep, str_drop (i + String.length sep) s)
  end.

(** ASCII case folding, as [re.IGNORECASE] does on bytes. *)
Definition lower (c : ascii) : ascii :=
  if in_range "A" "Z" c then ascii_of_nat (code c + 32) else c.

Fixpoint startswith_ci (s p : string) {struct p} : bool :=
  match p with
  | EmptyString => true
  | String c p' =>
      match s with
      | String d s' => bool_decide (lower c = lower d) && startswith_ci s' p'
      | EmptyString => false
      end
  end.

(** What [.*] consumes: everything up to, not including, a newline. *)
Fixpoint skip_line (s : string) : string :=
  match s with
  | EmptyString => EmptyString
  | String c s' => if bool_decide (c = "010"%char) then s else skip_line s'
  end.

Fixpoint subn_go (fuel : nat) (repl s : string) : string * nat :=
  match fuel with
  | O => (s, O)
  | S fuel' =>
      match s with
      | EmptyString => (EmptyString, O)
      | String c s' =>
          if startswith_ci s "Content-Length:" then
            let '(r, n) := subn_go fuel' repl (skip_line (str_drop 15 s)) in
            (repl +:+ r, S n)
          else
            let '(r, n) := subn_go fuel' repl s' in
            (String c r, n)
      end
  end.

(** [re.subn(b"Content-Length:.*", repl, s, 0, re.IGNORECASE)] *)
Definition subn_content_length (repl s : string) : string * nat :=
  subn_go (S (String.length s)) repl s.

Definition CRLF : string := String "013" (String "010" EmptyString).
Definition SEP : string := CRLF +:+ CRLF.

Definition content_length_header (n : nat) : string :=
  "Content-Length: " +:+ pretty n.

Definition update_content_length (request : string) : string :=
  if startswith request "GET" || startswith request "HEAD" then request else
  let '(header, _, body) := rpartition request SEP in
  if (String.length header =? 0)%nat then request else
  let content_length := String.length body in
  let header_line := content_length_header content_length in
  let '(result, replace_count) := subn_content_length header_line header in
  let result :=
    if (replace_count =? 0)%nat then result +:+ CRLF +:+ header_line else result in
  result +:+ SEP +:+ body.

Section Submitters.

(** [html.unescape] *)
Variable html_unescape : string -> string.
(** The state of the world the submitters act on. *)
Variable W : Type.

(** [BaseSubmitter]: its tamperers and the [submit_raw] of the subclass. *)
Record BaseSubmitter : Type := mkBaseSubmitter {
  tamperers : list (string -> string);
  submit_raw : string -> W -> option HTTPResponse * W
}.

(** [BaseSubmitter.__init__]: no tamperer. *)
Definition base_submitter (raw : string -> W -> option HTTPResponse * W)
  : BaseSubmitter := mkBaseSubmitter [] raw.

Definition add_tamperer (self : BaseSubmitter) (tamperer : string -> string)
  : BaseSubmitter :=
  mkBaseSubmitter (tamperers self ++ [tamperer]) (submit_raw self).

Definition submit (self : BaseSubmitter) (payload : string) (w : W)
  : option HTTPResponse * W :=
  let payload := fold_left (fun p tamperer => tamperer p) (tamperers self) payload in
  let '(resp, w') := submit_raw self payload w in
  match resp with
  | None => (None, w')
  | Some r => (Some (mkHTTPResponse (status_code r) (html_unescape (text r))), w')
  end.

End Submitters.

(** The effects the path submitter performs, in order. *)
Inductive event : Type :=
  | EV_REQUEST (method url : string) (params : gmap string string)
  | EV_CALLBACK (kind url payload : string).

Definition is_request (e : event) : bool :=
  match e with EV_REQUEST _ _ _ => true | _ => false end.

Record PathSubmitter : Type := mkPathSubmitter {
  ps_url : string;
  ps_extra_params : gmap string string
}.

(** [PathSubmitter.__init__] (the url gets a trailing "/"). *)
Definition path_submitter_init (url : string) : PathSubmitter :=
  let url := if endswith url "/" then url else url +:+ "/" in
  mkPathSubmitter url empty.

Section PathSubmit.

(** [urllib.parse.quote] *)
Variable quote : string -> string.
(** The target's answer to [requester.request(method, url, params)]. *)
Variable respond : string -> string -> gmap string string -> option HTTPResponse.

Definition path_submit_raw (self : PathSubmitter) (raw_payload : string)
    (trace : list event) : option HTTPResponse * list event :=
  if existsb (fun w => str_in w raw_payload) ["/"; ".."; " "; "%"] then
    (None, trace)
  else
    let url := ps_url self +:+ quote raw_payload in
    let resp := respond "GET" url (ps_extra_params self) in
    let trace := trace ++ [EV_REQUEST "GET" url (ps_extra_params self)] in
    let trace := trace ++ [EV_CALLBACK "path" (ps_url self) raw_payload] in
    match resp with
    | None => (None, trace)
    | Some r => (Some (mkHTTPResponse (status_code r) (text r)), trace)
    end.

End PathSubmit.

Arguments base_submitter {W} raw.
Arguments add_tamperer {W} self tamperer.
Arguments submit html_unescape {W} self payload w.

(* ------------------------------------------------------------------ *)
(** ** [fenjing/cli.py]: [is_form_has_response] *)

Section FormResponse.

(** [FormSubmitter(url, form, input_field, requester)] (with the shell
    tamperer when a tamper command is given) [.submit(payload)]: the
    target answers each submission as a function of the field and the
    payload. *)
Variable submit_field : string -> string -> option HTTPResponse.
(** [marker] of the i-th iteration:
    [''.join(random.choices(string.ascii_lowercase, k=4))]. *)
Variable marker_of : nat -> string.

Definition musterror_patterns : list string := ["{{"; "{%"; "{#"].

(** [any(marker not in result.text for result in rs if result is not None)] *)
Definition any_not_reflected (marker : string) (rs : list (option HTTPResponse)) : bool :=
  existsb (fun r => negb (str_in marker (text r))) (omap id rs).

Fixpoint is_form_has_response_go (inputs : list string) (i : nat) : bool :=
  match inputs with
  | [] => false
  | input_field :: rest =>
      let marker := marker_of i in
      let result1 := submit_field input_field marker in
      let musterror_result :=
        map (fun pattern => submit_field input_field (pattern +:+ marker))
          musterror_patterns in
      if match result1 with
         | Some r => str_in marker (text r) && any_not_reflected marker musterror_result
         | None => false
         end
      then true
      else is_form_has_response_go rest (S i)
  end.

Definition is_form_has_response (inputs : list string) : bool :=
  is_form_has_response_go inputs O.

End FormResponse.

(* ------------------------------------------------------------------ *)
(** ** [fenjing/cli.py]: [do_submit_cmdexec] *)

(** The goals of [full_payload_gen_like.generate]. *)
Inductive goal : Type :=
  | CONFIG
  | EVAL (t : target)
  | OS_POPEN_READ (cmd : string).

(** The submitter as far as [do_submit_cmdexec] sees it: whether it is an
    [ExtraParamAndDataCustomizable] (form, path and JSON submitters) and
    then its [extra_params]. *)
Inductive submitter : Type :=
  | SUB_PLAIN
  | SUB_CUSTOMIZABLE (extra_params : gmap string string).

Inductive exc : Type :=
  | KeyError (k : string)
  | IndexError
  | AssertionError.

Record cstate : Type := mkCstate {
  cs_submitter : submitter;
  cs_sent : list string       (* payloads submitted so far *)
}.

(** A state and exception monad. *)
Definition M (A : Type) : Type := cstate -> (exc + A) * cstate.

Definition ret {A} (a : A) : M A := fun st => (inr a, st).
Definition raise {A} (e : exc) : M A := fun st => (inl e, st).
Definition bind {A B} (m : M A) (k : A -> M B) : M B :=
  fun st => match m st with
            | (inl e, st') => (inl e, st')
            | (inr a, st') => k a st'
            end.

Notation "x <- m ;; k" := (bind m (fun x => k))
  (at level 100, m at next level, right associativity).
Notation "m ;;; k" := (bind m (fun _ => k)) (at level 100, right associativity).

Definition get_submitter : M submitter := fun st => (inr (cs_submitter st), st).

Definition is_customizable : M bool :=
  sub <- get_submitter ;;
  ret (match sub with SUB_CUSTOMIZABLE _ => true | SUB_PLAIN => false end).

(** [submitter.set_extra_param(k, v)] *)
Definition set_extra_param (k v : string) : M unit := fun st =>
  match cs_submitter st with
  | SUB_CUSTOMIZABLE m =>
      (inr tt, mkCstate (SUB_CUSTOMIZABLE (<[k:=v]> m)) (cs_sent st))
  | SUB_PLAIN => (inr tt, st)
  end.

(** [submitter.unset_extra_param(k)]: [del self.extra_params[k]] raises
    [KeyError] when [k] is absent. *)
Definition unset_extra_param (k : string) : M unit := fun st =>
  match cs_submitter st with
  | SUB_CUSTOMIZABLE m =>
      match m !! k with
      | Some _ => (inr tt, mkCstate (SUB_CUSTOMIZABLE (delete k m)) (cs_sent st))
      | None => (inl (KeyError k), st)
      end
  | SUB_PLAIN => (inr tt, st)
  end.

(** The characters below 256 that [str.strip] removes ([str.isspace]):
    \t to \r, \x1c to \x1f, the space, \x85 and \xa0. *)
Definition is_space (c : ascii) : bool :=
  bool_decide (c = " "%char) || in_range "009" "013" c || in_range "028" "031" c ||
  bool_decide (c = "133"%char) || bool_decide (c = "160"%char).

Fixpoint lstrip (s : string) : string :=
  match s with
  | String c s' => if is_space c then lstrip s' else s
  | EmptyString => EmptyString
  end.

Fixpoint rev_str (s : string) (acc : string) : string :=
  match s with
  | String c s' => rev_str s' (String c acc)
  | EmptyString => acc
  end.

(** [s.strip()] *)
Definition strip (s : string) : string :=
  rev_str (lstrip (rev_str (lstrip s) EmptyString)) EmptyString.

Section CmdExec.

(** [full_payload_gen_like.generate]: the payload, if any, and whether it
    will print its result. *)
Variable generate : goal -> option string * bool.
(** The target's answer to [submitter.submit(payload)]. *)
Variable submit_answer : string -> option HTTPResponse.
Variable py_repr : string -> string.
Variable GETFLAG_CODE_EVAL : string.
(** [parse_getflag_info] and [pformat] *)
Variable parse_getflag_info : string -> option string.
Variable pformat : string -> string.

Definition gen (g : goal) : M (option string * bool) := ret (generate g).

Definition submit_m (payload : string) : M (option HTTPResponse) := fun st =>
  (inr (submit_answer payload),
   mkCstate (cs_submitter st) (cs_sent st ++ [payload])).

(** The command parsing, up to the call of [generate]; [None] for the
    branches that return before it. *)
Definition parse_command (cmd : string) : M (option (option string * bool * bool)) :=
  match cmd with
  | EmptyString => raise IndexError                  (* cmd[0] *)
  | String "@" cmd =>
      if startswith cmd "get-config" then
        r <- gen CONFIG ;; ret (Some (r.1, r.2, false))
      else if startswith cmd "findflag" then
        c <- is_customizable ;;
        if negb c then ret None else
        set_extra_param "eval_this" GETFLAG_CODE_EVAL ;;;
        r <- gen (EVAL (ITEM (ATTRIBUTE (FLASK_CONTEXT_VAR "request") "values")
                              "eval_this")) ;;
        ret (Some (r.1, r.2, true))
      else if startswith cmd "eval" then
        r <- gen (EVAL (STRING (strip (str_drop 4 cmd)))) ;; ret (Some (r.1, r.2, false))
      else if startswith cmd "ls" then
        let cmd := strip cmd in
        if (String.length cmd =? 2)%nat then
          r <- gen (EVAL (STRING "__import__('os').listdir()")) ;;
          ret (Some (r.1, r.2, false))
        else
          r <- gen (EVAL (STRING ("__import__('os').listdir(" +:+
                                   py_repr (strip (str_drop 2 cmd)) +:+ ")"))) ;;
          ret (Some (r.1, r.2, false))
      else if startswith cmd "cat" then
        let filepath := strip (str_drop 3 cmd) in
        r <- gen (EVAL (STRING ("open(" +:+ py_repr filepath +:+ ", 'r').read()"))) ;;
        ret (Some (r.1, r.2, false))
      else if startswith cmd "exec" then
        let statements := strip (str_drop 4 cmd) in
        r <- gen (EVAL (STRING ("exec(" +:+ py_repr statements +:+ ")"))) ;;
        ret (Some (r.1, r.2, false))
      else ret None
  | _ =>
      r <- gen (OS_POPEN_READ cmd) ;; ret (Some (r.1, r.2, false))
  end.

Definition do_submit_cmdexec (cmd : string) : M string :=
  parsed <- parse_command cmd ;;
  match parsed with
  | None => ret ""
  | Some (payload, will_print, is_getflag_requested) =>
      match payload with
      | None =>
          (* logger.warning("Failed generating payload.") *)
          c <- is_customizable ;;
          (if c then unset_extra_param "eval_this" else ret tt) ;;;
          ret ""
      | Some payload =>
          result <- submit_m payload ;;
          match result with
          | None => raise AssertionError
          | Some result =>
              if is_getflag_requested then
                let flag_data := parse_getflag_info (text result) in
                c <- is_customizable ;;
                (if c then unset_extra_param "eval_this" else ret tt) ;;;
                match flag_data with
                | Some d => ret (strip (pformat d))
                | None => ret "GETFLAG_FAILED"
                end
              else ret (text result)
          end
      end
  end.

End CmdExec.

(* ------------------------------------------------------------------ *)
(** ** The other submitters of [fenjing/submitter.py] *)

(** One call [requester.request(method=..., url=..., params=..., data=...)]. *)
Record http_call : Type := mkHttpCall {
  call_method : string;
  call_url : string;
  call_params : gmap string string;
  call_data : gmap string string
}.

Record RequestSubmitter : Type := mkRequestSubmitter {
  rs_url : string;
  rs_method : string;
  rs_target_field : string;
  rs_params : gmap string string;
  rs_data : gmap string string
}.

(** [RequestSubmitter.__init__]: [params if params else {}], likewise
    [data] ([None] is [None], an empty dict gives [{}] either way). *)
Definition request_submitter_init (url method target_field : string)
    (params data : option (gmap string string)) : RequestSubmitter :=
  mkRequestSubmitter url method target_field
    (default empty params) (default empty data).

Section RequestSubmit.

(** The answer of [self.req.request(...)]. *)
Variable requester : http_call -> option HTTPResponse.

(** [RequestSubmitter.submit_raw]; the calls made so far are threaded
    through as [calls].  [self.params.copy()] and [self.data.copy()] are
    updated, the stored dicts are not. *)
Definition request_submit_raw (self : RequestSubmitter) (raw_payload : string)
    (calls : list http_call) : option HTTPResponse * list http_call :=
  let '(params, data) := (rs_params self, rs_data self) in
  let '(params, data) :=
    if bool_decide (rs_method self = "POST") then
      (params, <[rs_target_field self := raw_payload]> data)
    else
      (<[rs_target_field self := raw_payload]> params, data) in
  let call := mkHttpCall (rs_method self) (rs_url self) params data in
  (requester call, calls ++ [call]).

End RequestSubmit.

Section JsonSubmit.

(** JSON values, and the one a Python string becomes. *)
Variable V : Type.
Variable json_string : string -> V.

(** One call [requester.request(method=..., url=..., params=..., json=...)]. *)
Record json_call : Type := mkJsonCall {
  jc_method : string;
  jc_url : string;
  jc_params : gmap string string;
  jc_json : gmap string V
}.

Record JsonSubmitter : Type := mkJsonSubmitter {
  js_url : string;
  js_method : string;
  js_json_obj : gmap string V;
  js_key : string;
  js_extra_params : gmap string string
}.

(** [JsonSubmitter.__init__]: no extra parameter. *)
Definition json_submitter_init (url method : string) (json_obj : gmap string V)
    (key : string) : JsonSubmitter :=
  mkJsonSubmitter url method json_obj key empty.

Variable json_requester : json_call -> option HTTPResponse.

(** [JsonSubmitter.submit_raw] ([self.callback], which only reports, is
    left out): [json_data = {**self.json_obj, self.key: raw_payload}]. *)
Definition json_submit_raw (self : JsonSubmitter) (raw_payload : string)
    (calls : list json_call) : option HTTPResponse * list json_call :=
  let json_data := <[js_key self := json_string raw_payload]> (js_json_obj self) in
  let call := mkJsonCall (js_method self) (js_url self) (js_extra_params self) json_data in
  let resp := json_requester call in
  (match resp with
   | None => None
   | Some r => Some (mkHTTPResponse (status_code r) (text r))
   end, calls ++ [call]).

End JsonSubmit.

Arguments mkJsonCall {V} jc_method jc_url jc_params jc_json.
Arguments jc_json {V} j.
Arguments jc_params {V} j.
Arguments mkJsonSubmitter {V} js_url js_method js_json_obj js_key js_extra_params.
Arguments json_submitter_init {V} url method json_obj key.
Arguments json_submit_raw {V} json_string json_requester self raw_payload calls.

(** [s.replace(old, new)] for a non-empty [old]: left to right, the
    occurrences do not overlap. *)
Fixpoint replace_nonempty (fuel : nat) (old new s : string) : string :=
  match fuel with
  | O => s
  | S fuel' =>
      match s with
      | EmptyString => EmptyString
      | String c s' =>
          if startswith s old then
            new +:+ replace_nonempty fuel' old new (str_drop (String.length old) s)
          else String c (replace_nonempty fuel' old new s')
      end
  end.

(** [s.replace(b"", new)]: [new] before every byte and at the end. *)
Fixpoint replace_empty (new s : string) : string :=
  match s with
  | EmptyString => new
  | String c s' => new +:+ String c (replace_empty new s')
  end.

(** [s.replace(old, new)] on bytes. *)
Definition py_replace (s old new : string) : string :=
  match old with
  | EmptyString => replace_empty new s
  | _ => replace_nonempty (S (String.length s)) old new s
  end.

Record TCPSubmitter : Type := mkTCPSubmitter {
  tcp_pattern : string;
  tcp_toreplace : string;
  tcp_urlencode_payload : bool;
  tcp_enable_update_content_length : bool
}.

(** [TCPSubmitter(requester, pattern)] with its default arguments. *)
Definition tcp_submitter_init (pattern : string) : TCPSubmitter :=
  mkTCPSubmitter pattern "PAYLOAD" true true.

Section TCPSubmit.

(** [urllib.parse.quote] *)
Variable quote : string -> string.
(** [self.req.request(request)]: the status code and text, if any. *)
Variable tcp_request : string -> option (Z * string).

(** The bytes [TCPSubmitter.submit_raw] sends. *)
Definition tcp_request_bytes (self : TCPSubmitter) (raw_payload : string) : string :=
  let raw_payload :=
    if tcp_urlencode_payload self then quote raw_payload else raw_payload in
  let request := py_replace (tcp_pattern self) (tcp_toreplace self) raw_payload in
  if tcp_enable_update_content_length self then update_content_length request
  else request.

Definition tcp_submit_raw (self : TCPSubmitter) (raw_payload : string)
  : option HTTPResponse :=
  match tcp_request (tcp_request_bytes self raw_payload) with
  | None => None
  | Some (code, txt) => Some (mkHTTPResponse code txt)
  end.

End TCPSubmit.

(** [IOSubmitter]: [self.path] ([None] when it is not a [Path]) and
    [self.is_do_saving]. *)
Record IOSubmitter : Type := mkIOSubmitter {
  io_path : option string;
  io_is_do_saving : bool
}.

(** The files and the lines printed; writing a file does not fail here. *)
Record io_world : Type := mkIOWorld {
  io_files : gmap string string;
  io_stdout : list string
}.

Definition io_submitter_init (path : option string) : IOSubmitter :=
  mkIOSubmitter path true.

(** [IOSubmitter.submit_raw] *)
Definition io_submit_raw (self : IOSubmitter) (raw_payload : string) (w : io_world)
  : HTTPResponse * io_world :=
  let w :=
    if io_is_do_saving self then
      match io_path self with
      | Some p => mkIOWorld (<[p := raw_payload]> (io_files w)) (io_stdout w)
      | None => mkIOWorld (io_files w) (io_stdout w ++ [raw_payload])
      end
    else w in
  (mkHTTPResponse 250 raw_payload, w).

(** The [IOSubmitter] as a [BaseSubmitter] over the world. *)
Definition io_base (self : IOSubmitter) : BaseSubmitter io_world :=
  base_submitter (fun p w => let '(r, w') := io_submit_raw self p w in (Some r, w')).

(** [with self.stop_saving(): body].  The generator sets
    [is_do_saving = False], yields, then sets it to [True]; with no
    [try]/[finally], an exception of the body leaves it [False].  The
    body threads the submitter's state, which it may change. *)
Definition io_stop_saving {E A : Type}
    (body : IOSubmitter -> io_world -> (E + A) * IOSubmitter * io_world)
    (self : IOSubmitter) (w : io_world) : (E + A) * IOSubmitter * io_world :=
  match body (mkIOSubmitter (io_path self) false) w with
  | (inl e, self', w') => (inl e, self', w')
  | (inr a, self', w') => (inr a, mkIOSubmitter (io_path self') true, w')
  end.

(* ------------------------------------------------------------------ *)
(** ** [fenjing/cli.py]: [parse_headers_cookies] *)

(** [s.find(sep)]: the index of the first occurrence. *)
Fixpoint str_find (sep s : string) : option nat :=
  if startswith s sep then Some O else
  match s with
  | EmptyString => None
  | String _ s' => option_map S (str_find sep s')
  end.

(** [s.partition(sep)] *)
Definition str_partition (s sep : string) : string * string * string :=
  match str_find sep s with
  | None => (s, EmptyString, EmptyString)
  | Some i => (str_take i s, sep, str_drop (i + String.length sep) s)
  end.

Definition upper (c : ascii) : ascii :=
  if in_range "a" "z" c then ascii_of_nat (code c - 32) else c.

Fixpoint lower_str (s : string) : string :=
  match s with
  | EmptyString => EmptyString
  | String c s' => String (lower c) (lower_str s')
  end.

(** [s.capitalize()] on ASCII text: the first character upper case, the
    others lower case.  Python also maps the non-ASCII letters, which are
    left alone here; the properties below that depend on it assume ASCII
    text ([ascii_text]). *)
Definition capitalize (s : string) : string :=
  match s with
  | EmptyString => EmptyString
  | String c s' => String (upper c) (lower_str s')
  end.

Definition parse_headers_cookies (headers_list : list string) (cookies : string)
  : gmap string string :=
  let headers :=
    fold_left
      (fun (headers : gmap string string) header =>
         let '(key, _, value) := str_partition header ": " in
         if bool_decide (key = EmptyString) || bool_decide (value = EmptyString) then
           headers                       (* "Failed parsing ..., ignored." *)
         else
           let key := if bool_decide (capitalize key <> key) then capitalize key else key in
           <[key := value]> headers)
      headers_list empty in
  if bool_decide (cookies = EmptyString) then headers
  else <["Cookie" := cookies]> headers.


(* ------------------------------------------------------------------ *)
(** ** Helpers for the further properties *)

(** Text made of ASCII characters only (codes below 128), on which
    [capitalize] is Python's [str.capitalize]. *)
Fixpoint ascii_text (s : string) : bool :=
  match s with
  | EmptyString => true
  | String c s' => (code c <? 128)%nat && ascii_text s'
  end.

(** One step of the loop of [parse_headers_cookies]. *)
Definition parse_header_step (headers : gmap string string) (header : string)
  : gmap string string :=
  let '(key, _, value) := str_partition header ": " in
  if bool_decide (key = EmptyString) || bool_decide (value = EmptyString) then
    headers
  else
    let key := if bool_decide (capitalize key <> key) then capitalize key else key in
    <[key := value]> headers.

(** The Literal-Text fragments of the candidates of a rule. *)
Definition candidate_literals (cands : list target) : list string :=
  concat (map (fun t => match t with EXPRESSION _ ts => literals_list ts | _ => [] end) cands).

(** The rules that pass the name as a String requirement. *)
Definition name_quoting_rules : list ((string -> Z) -> target -> string -> list target) :=
  [gen_attribute_normal2; gen_attribute_attrfilter; gen_attribute_attrfilter2;
   gen_attribute_map; gen_item_normal2; gen_item_getfunc; gen_item_getfunc2;
   gen_item_dunderfunc; gen_item_dunderfunc2;
   gen_class_attribute_attrfilter; gen_class_attribute_attrfilter2].

(** A payload generator that always succeeds, and a target that echoes. *)
Definition generate_demo (g : goal) : option string * bool := (Some "payload", true).
Definition answer_demo (p : string) : option HTTPResponse :=
  Some (mkHTTPResponse 200 ("out:" +:+ p)).

(** A raw request template with the default marker. *)
Definition tcp_pattern_demo : string :=
  "POST / HTTP/1.1" +:+ CRLF +:+ "Host: a" +:+ CRLF +:+ "Content-Length: 0" +:+ SEP +:+
  "name=PAYLOAD".


(* ================================================================== *)
(** * Properties of the attribute/item rules *)

Lemma render_enclose_under sub ws level r out :
  render sub ws (ENCLOSE_UNDER level r) = Some out ->
  exists sp s, sub r = Some (sp, s) /\
    (sp < level -> out = "(" +:+ s +:+ ")") /\ (level <= sp -> out = s).
Proof.
  simpl. destruct (sub r) as [[sp s]|] eqn:E; intros H; [|discriminate].
  injection H as <-. exists sp, s. split; [reflexivity|]. unfold enclose.
  split; intros Hlt.
  - apply Z.ltb_lt in Hlt. by rewrite Hlt.
  - apply Z.ltb_ge in Hlt. by rewrite Hlt.
Qed.

Lemma gen_attribute_map3_short precedence obj_req attr_name :
  (String.length attr_name <= 4)%nat ->
  gen_attribute_map3 precedence obj_req attr_name =
  [EXPRESSION (precedence "filter_with_function_call")
     (targets_from_pattern
      "{ANYTHING:OBJ}|items|map(LAST)|map(*(ATTRNAME|batch(4)|map(JOIN)|list))|list|FILTER_THAT"
      [("ANYTHING", anything_value);
       ("OBJ", PV_ONE obj_req);
       ("LAST", PV_ONE (STRING "last"));
       ("FILTER_THAT", filter_that_value);
       (" ", PV_ONE WHITESPACE);
       ("4", PV_ONE (INTEGER 4));
       ("ATTRNAME",
         PV_ONE (ENCLOSE_UNDER (precedence "filter") (STRING ("attr" +:+ attr_name))));
       ("JOIN", PV_ONE (STRING "join"))])].
Proof.
  intros H. unfold gen_attribute_map3.
  apply Nat.ltb_ge in H. by rewrite H.
Qed.

Lemma gen_attribute_map4_long precedence obj_req attr_name :
  (4 <= String.length attr_name)%nat ->
  gen_attribute_map4 precedence obj_req attr_name =
  [EXPRESSION (precedence "filter_with_function_call")
     (targets_from_pattern
      "{ANYTHING:OBJ}|items|map(LAST)|map(*(ATTRNAME|batch(NAMELENGTH)|map(JOIN)|list|reverse))|list|FILTER_THAT"
      [("ANYTHING", anything_value);
       ("OBJ", PV_ONE obj_req);
       ("LAST", PV_ONE (STRING "last"));
       ("FILTER_THAT", filter_that_value);
       (" ", PV_ONE WHITESPACE);
       ("4", PV_ONE (INTEGER 4));
       ("ATTRNAME",
         PV_ONE (ENCLOSE_UNDER (precedence "filter") (STRING (attr_name +:+ "attr"))));
       ("NAMELENGTH", PV_ONE (INTEGER (Z.of_nat (String.length attr_name))));
       ("JOIN", PV_ONE (STRING "join"))])].
Proof.
  intros H. unfold gen_attribute_map4.
  apply Nat.ltb_ge in H. by rewrite H.
Qed.

(** C1: every candidate of a rule that embeds its object sub-requirement
    through Enclose-If-Needed requires, in each such fragment, exactly the
    candidate's own precedence level; the fragment is rendered wrapped in
    parentheses when the sub-candidate's precedence is strictly lower than
    that level, and unwrapped when it is greater or equal. *)
Theorem enclose_under_at_rule_level :
  forall (precedence : string -> Z) rule,
  In rule object_enclosing_rules ->
  forall obj_req name p tl,
  In (EXPRESSION p tl) (rule precedence obj_req name) ->
  enclosures_list tl <> [] /\
  forall level r, In (level, r) (enclosures_list tl) ->
    level = p /\
    forall sub ws out, render sub ws (ENCLOSE_UNDER level r) = Some out ->
      exists sp s, sub r = Some (sp, s) /\
        (sp < level -> out = "(" +:+ s +:+ ")") /\ (level <= sp -> out = s).
Proof.
  intros P rule Hrule obj name p tl Hc.
  unfold object_enclosing_rules in Hrule.
  destruct Hrule as [<-|[<-|[<-|[<-|[<-|[<-|[<-|[<-|[<-|[<-|[<-|[]]]]]]]]]]]];
  cbv [gen_attribute_normal1 gen_item_normal1] in Hc;
  try destruct (re_match_ident name);
  simpl in Hc; destruct Hc as [Hc|[]]; try discriminate;
  injection Hc as <- <-;
  (split; [simpl; discriminate|]);
  intros level r Hin; simpl in Hin;
  repeat (destruct Hin as [Hin|Hin];
          [injection Hin as <- <-; split; [reflexivity|intros sub ws out; apply render_enclose_under]|]);
  contradiction.
Qed.

(** C2 (code defect): [re.match] only anchors the identifier pattern at
    the start of the name, so "a-b", which is not a valid dotted-access
    name, is accepted by both plain dotted-access rules and emitted as
    the literal text of a dotted access. *)
Theorem dotted_rules_accept_non_identifier :
  forall (precedence : string -> Z) obj_req,
  is_identifier "a-b" = false /\
  gen_attribute_normal1 precedence obj_req "a-b" =
    [EXPRESSION (precedence "attribute")
       [ENCLOSE_UNDER (precedence "attribute") obj_req; LITERAL "."; LITERAL "a-b"]] /\
  gen_item_normal1 precedence obj_req "a-b" =
    [EXPRESSION (precedence "item")
       [ENCLOSE_UNDER (precedence "item") obj_req; LITERAL "."; LITERAL "a-b"]].
Proof. intros P obj. split; [reflexivity|split; reflexivity]. Qed.

(** C3 (counterexample): the claim fails for the name "map" with [obj_req]
    the context variable [lipsum]: the fixed pattern text "|items|map("
    of [gen_attribute_map3] already contains the name. *)
Lemma chunk_reassembly_payload_contains_name :
  ~ ((forall (precedence : string -> Z) sub ws obj_req name c p,
        (String.length name <= 4)%nat ->
        In c (gen_attribute_map3 precedence obj_req name) ->
        render sub ws c = Some p -> str_in name p = false) /\
     (forall (precedence : string -> Z) sub ws obj_req name c p,
        (4 <= String.length name)%nat ->
        In c (gen_attribute_map4 precedence obj_req name) ->
        render sub ws c = Some p -> str_in name p = false)).
Proof.
  intros [H3 _].
  set (cand := EXPRESSION 0
     [LITERAL "{"; ONEOF [[LITERAL "x"]; [INTEGER 0]; [INTEGER 1]];
      LITERAL ":"; FLASK_CONTEXT_VAR "lipsum";
      LITERAL "}|items|map("; STRING "last";
      LITERAL ")|map(*("; ENCLOSE_UNDER 0 (STRING "attrmap");
      LITERAL "|batch("; INTEGER 4; LITERAL ")|map(";
      STRING "join"; LITERAL ")|list))|list|";
      ONEOF [[LITERAL "last"]; [LITERAL "first"]]]).
  assert (Hc : gen_attribute_map3 prec_demo (FLASK_CONTEXT_VAR "lipsum") "map" = [cand])
    by (vm_compute; reflexivity).
  assert (Hr : render demo_sub "" cand =
    Some "{x:lipsum}|items|map('last')|map(*('attrmap'|batch(4)|map('join')|list))|list|last")
    by (vm_compute; reflexivity).
  assert (Hlen : (String.length "map" <= 4)%nat) by (simpl; lia).
  assert (Hin : In cand (gen_attribute_map3 prec_demo (FLASK_CONTEXT_VAR "lipsum") "map"))
    by (rewrite Hc; left; reflexivity).
  specialize (H3 prec_demo demo_sub "" (FLASK_CONTEXT_VAR "lipsum") "map" cand _ Hlen Hin Hr).
  vm_compute in H3. discriminate.
Qed.

(** C3 (amended): in the candidate of each chunk-reassembly rule, every
    Literal-Text fragment is fixed pattern text that does not depend on
    the attribute name, and the name enters only through the embedded
    string requirement "attr"+name ([gen_attribute_map3]) or name+"attr"
    ([gen_attribute_map4], together with the integer requirement
    len(name)), enclosed at the filter precedence; the object requirement
    is spliced in as it is. *)
Theorem chunk_reassembly_name_only_in_string :
  forall (precedence : string -> Z) obj_req name,
  ((String.length name <= 4)%nat ->
   exists l1 l2,
     gen_attribute_map3 precedence obj_req name =
       [EXPRESSION (precedence "filter_with_function_call") (l1 ++ obj_req :: l2)] /\
     literals_list (l1 ++ l2) =
       ["{"; "x"; ":"; "}|items|map("; ")|map(*("; "|batch("; ")|map(";
        ")|list))|list|"; "last"; "first"] /\
     requirements_list (l1 ++ l2) =
       [INTEGER 0; INTEGER 1; STRING "last"; STRING ("attr" +:+ name);
        INTEGER 4; STRING "join"] /\
     In (ENCLOSE_UNDER (precedence "filter") (STRING ("attr" +:+ name))) l2) /\
  ((4 <= String.length name)%nat ->
   exists l1 l2,
     gen_attribute_map4 precedence obj_req name =
       [EXPRESSION (precedence "filter_with_function_call") (l1 ++ obj_req :: l2)] /\
     literals_list (l1 ++ l2) =
       ["{"; "x"; ":"; "}|items|map("; ")|map(*("; "|batch("; ")|map(";
        ")|list|reverse))|list|"; "last"; "first"] /\
     requirements_list (l1 ++ l2) =
       [INTEGER 0; INTEGER 1; STRING "last"; STRING (name +:+ "attr");
        INTEGER (Z.of_nat (String.length name)); STRING "join"] /\
     In (ENCLOSE_UNDER (precedence "filter") (STRING (name +:+ "attr"))) l2).
Proof.
  intros P obj name. split; intros H.
  - rewrite gen_attribute_map3_short by exact H.
    exists [LITERAL "{"; ONEOF [[LITERAL "x"]; [INTEGER 0]; [INTEGER 1]]; LITERAL ":"],
      [LITERAL "}|items|map("; STRING "last"; LITERAL ")|map(*(";
       ENCLOSE_UNDER (P "filter") (STRING ("attr" +:+ name));
       LITERAL "|batch("; INTEGER 4; LITERAL ")|map("; STRING "join";
       LITERAL ")|list))|list|"; ONEOF [[LITERAL "last"]; [LITERAL "first"]]].
    split; [vm_compute; reflexivity|].
    split; [reflexivity|]. split; [reflexivity|]. simpl; tauto.
  - rewrite gen_attribute_map4_long by exact H.
    exists [LITERAL "{"; ONEOF [[LITERAL "x"]; [INTEGER 0]; [INTEGER 1]]; LITERAL ":"],
      [LITERAL "}|items|map("; STRING "last"; LITERAL ")|map(*(";
       ENCLOSE_UNDER (P "filter") (STRING (name +:+ "attr"));
       LITERAL "|batch("; INTEGER (Z.of_nat (String.length name)); LITERAL ")|map(";
       STRING "join"; LITERAL ")|list|reverse))|list|";
       ONEOF [[LITERAL "last"]; [LITERAL "first"]]].
    split; [vm_compute; reflexivity|].
    split; [reflexivity|]. split; [reflexivity|]. simpl; tauto.
Qed.

(** C4: with no step the chained-access rule returns the object
    requirement itself; with a first step (kind, name) it returns one
    chained requirement whose object is that step applied to the object
    and whose steps are the remaining ones; unfolding the chain through
    the rule (once per step, once more for the empty chain) yields the
    left fold of the steps over the object. *)
Theorem chained_access_left_fold :
  forall obj_req (steps : list (tag * string)),
  gen_chained_attribute_item_normal obj_req [] = [obj_req] /\
  (forall req_type req_name rest,
     gen_chained_attribute_item_normal obj_req ((req_type, req_name) :: rest) =
     [CHAINED_ATTRIBUTE_ITEM (access_target req_type obj_req req_name) rest]) /\
  unfold_chained (S (length steps)) (CHAINED_ATTRIBUTE_ITEM obj_req steps) =
    fold_steps obj_req steps.
Proof.
  intros obj steps. split; [reflexivity|]. split; [reflexivity|].
  revert obj. induction steps as [|[k n] rest IH]; intros obj.
  - reflexivity.
  - transitivity (unfold_chained (S (length rest))
                    (CHAINED_ATTRIBUTE_ITEM (access_target k obj n) rest));
      [reflexivity|].
    rewrite IH. reflexivity.
Qed.

Definition is_real_candidate (cands : list target) : Prop :=
  exists p tl, cands = [EXPRESSION p tl].

(** C10: [gen_attribute_map3] returns the Unsatisfiable candidate exactly
    for names longer than 4 characters and a real candidate otherwise,
    [gen_attribute_map4] exactly for names shorter than 4 characters and
    a real candidate otherwise; so one of them always emits a real
    candidate, and both do for names of length 4. *)
Theorem chunk_rules_cover_all_names :
  forall (precedence : string -> Z) obj_req name,
  (gen_attribute_map3 precedence obj_req name = [UNSATISFIED] <->
     (4 < String.length name)%nat) /\
  ((String.length name <= 4)%nat ->
     is_real_candidate (gen_attribute_map3 precedence obj_req name)) /\
  (gen_attribute_map4 precedence obj_req name = [UNSATISFIED] <->
     (String.length name < 4)%nat) /\
  ((4 <= String.length name)%nat ->
     is_real_candidate (gen_attribute_map4 precedence obj_req name)) /\
  (is_real_candidate (gen_attribute_map3 precedence obj_req name) \/
   is_real_candidate (gen_attribute_map4 precedence obj_req name)) /\
  (String.length name = 4%nat ->
     is_real_candidate (gen_attribute_map3 precedence obj_req name) /\
     is_real_candidate (gen_attribute_map4 precedence obj_req name)).
Proof.
  intros P obj name.
  assert (H3 : (String.length name <= 4)%nat ->
               is_real_candidate (gen_attribute_map3 P obj name)).
  { intros H. rewrite gen_attribute_map3_short by exact H. eexists _, _. reflexivity. }
  assert (H4 : (4 <= String.length name)%nat ->
               is_real_candidate (gen_attribute_map4 P obj name)).
  { intros H. rewrite gen_attribute_map4_long by exact H. eexists _, _. reflexivity. }
  assert (U3 : (4 < String.length name)%nat ->
               gen_attribute_map3 P obj name = [UNSATISFIED]).
  { intros H. unfold gen_attribute_map3. apply Nat.ltb_lt in H. by rewrite H. }
  assert (U4 : (String.length name < 4)%nat ->
               gen_attribute_map4 P obj name = [UNSATISFIED]).
  { intros H. unfold gen_attribute_map4. apply Nat.ltb_lt in H. by rewrite H. }
  assert (NR : forall c, is_real_candidate c -> c <> [UNSATISFIED]).
  { intros c (p & tl & ->). discriminate. }
  split; [|split; [exact H3|split; [|split; [exact H4|split]]]].
  - split; [|exact U3]. intros E.
    destruct (Nat.le_gt_cases (String.length name) 4) as [Hle|Hgt]; [|exact Hgt].
    exfalso. exact (NR _ (H3 Hle) E).
  - split; [|exact U4]. intros E.
    destruct (Nat.le_gt_cases 4 (String.length name)) as [Hle|Hgt]; [|exact Hgt].
    exfalso. exact (NR _ (H4 Hle) E).
  - destruct (Nat.le_gt_cases (String.length name) 4) as [Hle|Hgt].
    + left. exact (H3 Hle).
    + right. apply H4. lia.
  - intros E. split; [apply H3|apply H4]; lia.
Qed.

(* ================================================================== *)
(** * Properties of the submitters *)

Lemma tamperers_add_all {W} (ts : list (string -> string)) (s0 : BaseSubmitter W) :
  tamperers W (fold_left add_tamperer ts s0) = tamperers W s0 ++ ts.
Proof.
  revert s0. induction ts as [|t ts IH]; intros s0; simpl.
  - by rewrite app_nil_r.
  - rewrite IH. simpl. by rewrite <- app_assoc.
Qed.

Lemma submit_raw_add_all {W} (ts : list (string -> string)) (s0 : BaseSubmitter W) :
  submit_raw W (fold_left add_tamperer ts s0) = submit_raw W s0.
Proof.
  revert s0. induction ts as [|t ts IH]; intros s0; simpl; [reflexivity|].
  by rewrite IH.
Qed.

(** C6: a submitter built with no tamperer and given tamperers
    t1, ..., tn by [add_tamperer] keeps them in that order; [submit]
    passes tn (... (t1 payload)) to [submit_raw], returns [None] exactly
    when [submit_raw] does, and otherwise a response with [submit_raw]'s
    status code and the HTML-unescaped text of its response. *)
Theorem submit_tamper_chain :
  forall html_unescape W (raw : string -> W -> option HTTPResponse * W)
    (ts : list (string -> string)) payload (w : W),
  let self := fold_left add_tamperer ts (base_submitter raw) in
  let tampered := fold_left (fun p tamperer => tamperer p) ts payload in
  tamperers W self = ts /\
  ((submit html_unescape self payload w).1 = None <-> (raw tampered w).1 = None) /\
  (forall r w', raw tampered w = (Some r, w') ->
     submit html_unescape self payload w =
       (Some (mkHTTPResponse (status_code r) (html_unescape (text r))), w')) /\
  (forall w', raw tampered w = (None, w') ->
     submit html_unescape self payload w = (None, w')).
Proof.
  intros unesc W raw ts payload w self tampered.
  assert (Ht : tamperers W self = ts) by (unfold self; by rewrite tamperers_add_all).
  assert (Hr : submit_raw W self = raw) by (unfold self; by rewrite submit_raw_add_all).
  assert (Hs : submit unesc self payload w =
    let '(resp, w') := raw tampered w in
    match resp with
    | None => (None, w')
    | Some r => (Some (mkHTTPResponse (status_code r) (unesc (text r))), w')
    end).
  { unfold submit. rewrite Ht, Hr. reflexivity. }
  split; [exact Ht|]. rewrite Hs.
  destruct (raw tampered w) as [[r|] w'].
  - split; [simpl; split; discriminate|].
    split; [intros r' w'' [= <- <-]; reflexivity|intros w'' [=]].
  - split; [simpl; tauto|].
    split; [intros r' w'' [=]|intros w'' [= <-]; reflexivity].
Qed.

(** C9: [PathSubmitter.submit_raw] refuses, with [None] and no effect at
    all, every payload containing "/", "..", " " or "%"; for any other
    payload it issues exactly one request, a GET of the stored URL
    followed by the quoted payload (with the extra parameters), and then
    runs the callback. *)
Theorem path_submit_raw_guard :
  forall quote respond (self : PathSubmitter) raw_payload trace,
  ((str_in "/" raw_payload || str_in ".." raw_payload ||
    str_in " " raw_payload || str_in "%" raw_payload) = true ->
   path_submit_raw quote respond self raw_payload trace = (None, trace)) /\
  ((str_in "/" raw_payload || str_in ".." raw_payload ||
    str_in " " raw_payload || str_in "%" raw_payload) = false ->
   let url := ps_url self +:+ quote raw_payload in
   let req := EV_REQUEST "GET" url (ps_extra_params self) in
   exists resp,
     path_submit_raw quote respond self raw_payload trace =
       (resp, trace ++ [req; EV_CALLBACK "path" (ps_url self) raw_payload]) /\
     filter is_request (path_submit_raw quote respond self raw_payload trace).2 =
       filter is_request trace ++ [req]).
Proof.
  intros quote respond self p trace.
  unfold path_submit_raw. cbn [existsb].
  rewrite !orb_assoc, orb_false_r.
  split; intros H; rewrite H; [reflexivity|].
  simpl. rewrite <- app_assoc.
  destruct (respond _ _ _) as [r|]; eexists; (split; [reflexivity|]);
  simpl; rewrite filter_app; simpl; reflexivity.
Qed.

Lemma startswith_app (p r : string) : startswith (p +:+ r) p = true.
Proof.
  induction p as [|c p IH]; [reflexivity|]. simpl.
  rewrite IH, bool_decide_eq_true_2 by reflexivity. reflexivity.
Qed.


Lemma str_in_startswith (sub t : string) : startswith t sub = true -> str_in sub t = true.
Proof. destruct t; simpl; intros ->; reflexivity. Qed.



Lemma str_in_prefix (sub r : string) : str_in sub (sub +:+ r) = true.
Proof. apply str_in_startswith, startswith_app. Qed.

Lemma subn_go_none fuel repl s :
  (subn_go fuel repl s).2 = O -> (subn_go fuel repl s).1 = s.
Proof.
  revert s. induction fuel as [|fuel IH]; intros s; cbn [subn_go]; [auto|].
  destruct s as [|c s']; [auto|].
  destruct (startswith_ci (String c s') "Content-Length:").
  - destruct (subn_go fuel repl _). cbn. intros [=].
  - specialize (IH s'). destruct (subn_go fuel repl s') as [r n].
    cbn in *. intros H. by rewrite IH.
Qed.

Lemma subn_go_some fuel repl s :
  (subn_go fuel repl s).2 <> O -> str_in repl (subn_go fuel repl s).1 = true.
Proof.
  revert s. induction fuel as [|fuel IH]; intros s; cbn [subn_go]; [intros H; by destruct H|].
  destruct s as [|c s']; [cbn; intros H; by destruct H|].
  destruct (startswith_ci (String c s') "Content-Length:").
  - destruct (subn_go fuel repl _). cbn. intros _. apply str_in_prefix.
  - specialize (IH s'). destruct (subn_go fuel repl s') as [r n].
    cbn in *. intros H. rewrite (IH H). apply orb_true_r.
Qed.

Lemma rfind_startswith sep s i :
  rfind sep s = Some i -> startswith (str_drop i s) sep = true.
Proof.
  revert i. induction s as [|c s IH]; intros i; simpl.
  - destruct (startswith "" sep) eqn:E; intros H; [|discriminate].
    injection H as <-. destruct O; exact E.
  - destruct (rfind sep s) as [k|] eqn:Ek.
    + intros H. injection H as <-. simpl. by apply IH.
    + destruct (startswith (String c s) sep) eqn:E; intros H; [|discriminate].
      injection H as <-. simpl. exact E.
Qed.

Lemma str_take_drop i s : str_take i s +:+ str_drop i s = s.
Proof.
  revert s. induction i as [|i IH]; intros [|c s]; simpl; try reflexivity.
  change (String c (str_take i s +:+ str_drop i s) = String c s). by rewrite IH.
Qed.

Lemma str_drop_add i k s : str_drop (i + k) s = str_drop k (str_drop i s).
Proof.
  revert s. induction i as [|i IH]; intros s; [reflexivity|].
  destruct s as [|c s]; simpl; [by destruct k|]. apply IH.
Qed.

Lemma startswith_split t sep :
  startswith t sep = true -> t = sep +:+ str_drop (String.length sep) t.
Proof.
  revert t. induction sep as [|c sep IH]; intros t; [reflexivity|].
  destruct t as [|d t]; simpl; [discriminate|].
  intros H. apply andb_prop in H as [Hc Ht].
  apply bool_decide_eq_true_1 in Hc as ->.
  change (String d t = String d (sep +:+ str_drop (String.length sep) t)).
  f_equal. by apply IH.
Qed.

Lemma rpartition_found s sep i :
  rfind sep s = Some i ->
  rpartition s sep = (str_take i s, sep, str_drop (i + String.length sep) s) /\
  s = str_take i s +:+ sep +:+ str_drop (i + String.length sep) s.
Proof.
  intros H. unfold rpartition. rewrite H. split; [reflexivity|].
  rewrite str_drop_add, <- (startswith_split _ _ (rfind_startswith _ _ _ H)).
  symmetry. apply str_take_drop.
Qed.

(* ------------------------------------------------------------------ *)
Local Abbreviation CL := "Content-Length:"%string.

(** ** Lemmas on strings *)

Lemma str_app_cons x (a b : string) : String x a +:+ b = String x (a +:+ b).
Proof. reflexivity. Qed.

Lemma str_app_assoc (a b c : string) : (a +:+ b) +:+ c = a +:+ (b +:+ c).
Proof. induction a as [|x a IH]; [reflexivity|]. rewrite !str_app_cons. by rewrite IH. Qed.

Lemma str_app_nil_r (a : string) : a +:+ EmptyString = a.
Proof. induction a as [|x a IH]; [reflexivity|]. rewrite str_app_cons. by rewrite IH. Qed.

Lemma str_app_length (a b : string) :
  String.length (a +:+ b) = (String.length a + String.length b)%nat.
Proof. induction a as [|x a IH]; [reflexivity|]. rewrite str_app_cons. simpl. by rewrite IH. Qed.

Lemma str_drop_length n s : String.length (str_drop n s) = (String.length s - n)%nat.
Proof. revert s; induction n as [|n IH]; intros [|c s]; simpl; auto with lia. Qed.

Lemma skip_line_length s : (String.length (skip_line s) <= String.length s)%nat.
Proof.
  induction s as [|c s IH]; simpl; [lia|].
  case_decide; simpl; lia.
Qed.

Lemma startswith_ci_length s p :
  startswith_ci s p = true -> (String.length p <= String.length s)%nat.
Proof.
  revert s; induction p as [|c p IH]; intros [|d s]; simpl; try lia; try discriminate.
  intros H. apply andb_prop in H as [_ H]. apply IH in H. lia.
Qed.

(** ** Replacing the Content-Length header *)

Lemma subn_go_fuel repl f1 : forall f2 s,
  (String.length s < f1)%nat -> (String.length s < f2)%nat ->
  subn_go f1 repl s = subn_go f2 repl s.
Proof.
  induction f1 as [|f1 IH]; intros [|f2] s H1 H2; try lia.
  cbn [subn_go]. destruct s as [|c s']; [reflexivity|].
  destruct (startswith_ci (String c s') CL) eqn:E.
  - apply startswith_ci_length in E. simpl in E, H1, H2.
    pose proof (skip_line_length (str_drop 15 (String c s'))) as Hl.
    rewrite str_drop_length in Hl. simpl in Hl.
    rewrite (IH f2 (skip_line (str_drop 15 (String c s')))); [reflexivity| |]; simpl; lia.
  - simpl in H1, H2. rewrite (IH f2 s'); [reflexivity| |]; lia.
Qed.

Lemma subn_nil repl : subn_content_length repl EmptyString = (EmptyString, O).
Proof. reflexivity. Qed.

Lemma subn_match repl s :
  startswith_ci s CL = true ->
  subn_content_length repl s =
    (let '(r, n) := subn_content_length repl (skip_line (str_drop 15 s)) in
     (repl +:+ r, S n)).
Proof.
  intros H. pose proof (startswith_ci_length _ _ H) as Hl. simpl in Hl.
  destruct s as [|c s']; [discriminate|].
  unfold subn_content_length at 1. cbn [subn_go]. rewrite H.
  unfold subn_content_length.
  pose proof (skip_line_length (str_drop 15 (String c s'))) as Hk.
  rewrite str_drop_length in Hk. simpl in Hk, Hl.
  rewrite (subn_go_fuel repl (S (String.length s'))
             (S (String.length (skip_line (str_drop 15 (String c s')))))); [reflexivity| |]; simpl in *; lia.
Qed.

Lemma subn_nomatch repl c s :
  startswith_ci (String c s) CL = false ->
  subn_content_length repl (String c s) =
    (let '(r, n) := subn_content_length repl s in (String c r, n)).
Proof.
  intros H. unfold subn_content_length. cbn [subn_go]. rewrite H. reflexivity.
Qed.

Lemma startswith_ci_app a b q :
  startswith_ci a q = true -> startswith_ci (a +:+ b) q = true.
Proof.
  revert a; induction q as [|c q IH]; intros [|d a]; simpl; try discriminate; try reflexivity.
  intros H. apply andb_prop in H as [H1 H2]. rewrite H1, (IH a H2). reflexivity.
Qed.

Lemma startswith_ci_agree q : forall a b p,
  startswith_ci a q = true -> startswith_ci b q = true ->
  (String.length p <= String.length q)%nat ->
  startswith_ci a p = startswith_ci b p.
Proof.
  induction q as [|c q IH]; intros a b p Ha Hb Hp.
  - destruct p; simpl in Hp; [reflexivity|lia].
  - destruct a as [|d a]; [discriminate|]. destruct b as [|e b]; [discriminate|].
    simpl in Ha, Hb. apply andb_prop in Ha as [Hd Ha]. apply andb_prop in Hb as [He Hb].
    apply bool_decide_eq_true_1 in Hd, He.
    destruct p as [|x p]; [reflexivity|]. simpl in Hp |- *.
    rewrite (IH a b p Ha Hb) by lia. rewrite <- Hd, <- He. reflexivity.
Qed.

Lemma startswith_ci_cons_agree c a b q :
  (forall p, (String.length p <= 15)%nat -> startswith_ci a p = startswith_ci b p) ->
  (String.length q <= 16)%nat ->
  startswith_ci (String c a) q = startswith_ci (String c b) q.
Proof.
  intros H Hq. destruct q as [|x q]; simpl; [reflexivity|].
  simpl in Hq. rewrite H by lia. reflexivity.
Qed.

(** A replacement that starts with the pattern's literal part. *)
Section Subn.

Variable repl : string.
Hypothesis repl_head : startswith_ci repl CL = true.
Hypothesis repl_line : forall u, skip_line (str_drop 15 (repl +:+ u)) = skip_line u.

Lemma subn_agree_aux : forall n s, (String.length s < n)%nat ->
  forall p, (String.length p <= 15)%nat ->
  startswith_ci (subn_content_length repl s).1 p = startswith_ci s p.
Proof.
  induction n as [|n IH]; intros s Hs p Hp; [lia|].
  destruct s as [|c s']; [reflexivity|].
  destruct (startswith_ci (String c s') CL) eqn:E.
  - rewrite subn_match by exact E.
    destruct (subn_content_length repl _) as [r k]. simpl.
    apply (startswith_ci_agree CL); [by apply startswith_ci_app|exact E|simpl; lia].
  - rewrite subn_nomatch by exact E.
    pose proof (IH s' ltac:(simpl in Hs; lia)) as IHs.
    destruct (subn_content_length repl s') as [r k] eqn:Es. simpl in IHs |- *.
    destruct p as [|x p]; [reflexivity|]. simpl. simpl in Hp.
    rewrite IHs by lia. reflexivity.
Qed.

Lemma subn_agree s p : (String.length p <= 15)%nat ->
  startswith_ci (subn_content_length repl s).1 p = startswith_ci s p.
Proof. apply (subn_agree_aux (S (String.length s))). lia. Qed.

Lemma skip_line_shape s :
  skip_line s = EmptyString \/ exists t, skip_line s = String "010" t.
Proof.
  induction s as [|c s IH]; simpl; [by left|].
  case_decide; [subst; right; by exists s|exact IH].
Qed.

Lemma subn_skip_line_fixed t :
  skip_line (subn_content_length repl (skip_line t)).1 =
  (subn_content_length repl (skip_line t)).1.
Proof.
  destruct (skip_line_shape t) as [->|[t' ->]]; [reflexivity|].
  rewrite subn_nomatch by reflexivity.
  destruct (subn_content_length repl t'). reflexivity.
Qed.

Lemma subn_idem_aux : forall n s, (String.length s < n)%nat ->
  subn_content_length repl (subn_content_length repl s).1 = subn_content_length repl s.
Proof.
  induction n as [|n IH]; intros s Hs; [lia|].
  destruct s as [|c s']; [reflexivity|].
  destruct (startswith_ci (String c s') CL) eqn:E.
  - pose proof (startswith_ci_length _ _ E) as Hl. simpl in Hl.
    pose proof (skip_line_length (str_drop 15 (String c s'))) as Hk.
    rewrite str_drop_length in Hk.
    pose proof (subn_skip_line_fixed (str_drop 15 (String c s'))) as Hfix.
    pose proof (IH (skip_line (str_drop 15 (String c s'))) ltac:(simpl in *; lia)) as IHt.
    rewrite (subn_match repl (String c s') E).
    destruct (subn_content_length repl (skip_line (str_drop 15 (String c s')))) as [r k]
      eqn:Et.
    simpl in Hfix, IHt |- *.
    rewrite subn_match by (by apply startswith_ci_app).
    rewrite repl_line, Hfix, IHt. reflexivity.
  - pose proof (IH s' ltac:(simpl in Hs; lia)) as IHs.
    pose proof (subn_agree s') as Hag.
    rewrite (subn_nomatch repl c s' E).
    destruct (subn_content_length repl s') as [r k] eqn:Es. simpl in IHs, Hag |- *.
    rewrite subn_nomatch.
    + rewrite IHs. reflexivity.
    + transitivity (startswith_ci (String c s') CL); [|exact E].
      apply startswith_ci_cons_agree; [exact Hag|simpl; lia].
Qed.

Lemma subn_idem s :
  subn_content_length repl (subn_content_length repl s).1 = subn_content_length repl s.
Proof. apply (subn_idem_aux (S (String.length s))). lia. Qed.

Fixpoint no_cr (p : string) : bool :=
  match p with
  | EmptyString => true
  | String x p' => negb (bool_decide (lower x = "013"%char)) && no_cr p'
  end.

Lemma startswith_ci_cr p : no_cr p = true ->
  forall h t, startswith_ci (h +:+ String "013" t) p = startswith_ci h p.
Proof.
  induction p as [|x p IH]; intros Hp h t; [reflexivity|].
  simpl in Hp. apply andb_prop in Hp as [Hx Hp].
  destruct h as [|d h]; simpl.
  - destruct (bool_decide (lower x = lower "013")) eqn:E; [|reflexivity].
    apply bool_decide_eq_true_1 in E. rewrite E in Hx. discriminate.
  - rewrite IH by exact Hp. reflexivity.
Qed.

Lemma subn_app_crlf h :
  (subn_content_length repl h).2 = O ->
  subn_content_length repl (h +:+ CRLF +:+ repl) = (h +:+ CRLF +:+ repl, 1%nat).
Proof.
  induction h as [|c h IH]; intros H0.
  - change (EmptyString +:+ CRLF +:+ repl) with (String "013" (String "010" repl)).
    rewrite subn_nomatch by reflexivity.
    rewrite subn_nomatch by reflexivity.
    pose proof (repl_line EmptyString) as Hl. rewrite str_app_nil_r in Hl.
    rewrite subn_match by exact repl_head. rewrite Hl. simpl.
    rewrite str_app_nil_r. reflexivity.
  - destruct (startswith_ci (String c h) CL) eqn:E.
    + rewrite (subn_match repl (String c h) E) in H0.
      destruct (subn_content_length repl (skip_line (str_drop 15 (String c h)))).
      discriminate.
    + rewrite (subn_nomatch repl c h E) in H0.
      destruct (subn_content_length repl h) as [r k] eqn:Eh. simpl in H0. subst k.
      change ((String c h) +:+ CRLF +:+ repl) with (String c (h +:+ CRLF +:+ repl)).
      rewrite subn_nomatch.
      * rewrite IH by reflexivity. reflexivity.
      * change (String c (h +:+ CRLF +:+ repl)) with
          ((String c h) +:+ String "013" (String "010" repl)).
        rewrite startswith_ci_cr by reflexivity. exact E.
Qed.

Lemma subn_no_C p : str_in "C" p = false ->
  forall h X, repl <> EmptyString -> startswith repl "C" = true ->
  startswith ((subn_content_length repl h).1 +:+ X) p = true ->
  startswith (h +:+ X) p = true.
Proof.
  induction p as [|x p IH]; intros Hp h X Hne HC; [reflexivity|].
  simpl in Hp. apply orb_false_iff in Hp as [Hx Hp].
  rewrite andb_true_r in Hx.
  destruct h as [|c h]; [simpl; auto|].
  destruct (startswith_ci (String c h) CL) eqn:E.
  - rewrite subn_match by exact E.
    destruct (subn_content_length repl _) as [r k]. simpl.
    destruct repl as [|d rest]; [done|]. simpl in HC.
    rewrite andb_true_r in HC. apply bool_decide_eq_true_1 in HC. subst d.
    simpl. apply bool_decide_eq_false_1 in Hx.
    rewrite (bool_decide_eq_false_2 (x = "C"%char)) by congruence. intros [=].
  - rewrite subn_nomatch by exact E.
    specialize (IH Hp h X Hne HC).
    destruct (subn_content_length repl h) as [r k]. simpl in IH |- *.
    intros H. apply andb_prop in H as [H1 H2]. rewrite H1. simpl. by apply IH.
Qed.

End Subn.

Lemma pretty_N_go_skip x : forall s u,
  skip_line (pretty_N_go x s +:+ u) = skip_line (s +:+ u).
Proof.
  induction (N.lt_wf_0 x) as [x _ IH]; intros s u.
  destruct (decide (x = 0)%N) as [->|Hx]; [by rewrite pretty_N_go_0|].
  rewrite pretty_N_go_step by lia. rewrite IH by (apply N.div_lt; lia).
  change (String (pretty_N_char (x `mod` 10)) s +:+ u)
    with (String (pretty_N_char (x `mod` 10)) (s +:+ u)).
  cbn [skip_line].
  assert (Hc : bool_decide (pretty_N_char (x `mod` 10) = "010"%char) = false).
  { unfold pretty_N_char. by repeat case_match. }
  destruct (bool_decide _) eqn:E; [discriminate|]. reflexivity.
Qed.

Lemma content_length_header_line n u :
  skip_line (str_drop 15 (content_length_header n +:+ u)) = skip_line u.
Proof.
  unfold content_length_header. rewrite str_app_assoc. simpl.
  change (skip_line (pretty_N (N.of_nat n) +:+ u) = skip_line u).
  unfold pretty_N. case_decide; [reflexivity|].
  apply pretty_N_go_skip.
Qed.

(** ** The last header/body separator *)

Lemma rfind_app sep (A T : string) k :
  rfind sep T = Some k -> rfind sep (A +:+ T) = Some (String.length A + k)%nat.
Proof.
  intros H. induction A as [|c A IH]; [exact H|].
  rewrite str_app_cons. simpl. rewrite IH. reflexivity.
Qed.

Lemma rfind_of_startswith sep s :
  startswith s sep = true -> exists k, rfind sep s = Some k.
Proof.
  intros H. destruct s as [|c s]; simpl; rewrite ?H.
  - by exists O.
  - destruct (rfind sep s) as [k|]; [by exists (S k)|by exists O].
Qed.

Lemma rfind_le sep s i : rfind sep s = Some i -> (i <= String.length s)%nat.
Proof.
  revert i. induction s as [|c s IH]; intros i; simpl.
  - destruct (startswith "" sep); intros [=<-]; lia.
  - destruct (rfind sep s) as [k|].
    + intros [=<-]. specialize (IH k eq_refl). lia.
    + destruct (startswith (String c s) sep); intros [=<-]; lia.
Qed.

Lemma str_take_length i s : (i <= String.length s)%nat -> String.length (str_take i s) = i.
Proof.
  revert s; induction i as [|i IH]; intros [|c s]; simpl; intros H; try lia.
  rewrite IH by lia. reflexivity.
Qed.

Lemma str_take_app (a b : string) : str_take (String.length a) (a +:+ b) = a.
Proof. induction a as [|c a IH]; [reflexivity|]. rewrite str_app_cons. simpl. by rewrite IH. Qed.

Lemma str_drop_app (a b : string) : str_drop (String.length a) (a +:+ b) = b.
Proof. induction a as [|c a IH]; [reflexivity|]. rewrite str_app_cons. simpl. exact IH. Qed.

Lemma startswith_app_cr p : str_in (String "013" EmptyString) p = false ->
  forall h t t', startswith (h +:+ String "013" t) p = startswith (h +:+ String "013" t') p.
Proof.
  induction p as [|x p IH]; intros Hp h t t'; [reflexivity|].
  simpl in Hp. apply orb_false_iff in Hp as [Hx Hp]. rewrite andb_true_r in Hx.
  destruct h as [|d h].
  - simpl. apply bool_decide_eq_false_1 in Hx.
    rewrite (bool_decide_eq_false_2 (x = "013"%char)) by congruence. reflexivity.
  - rewrite !str_app_cons. simpl. rewrite (IH Hp h t t'). reflexivity.
Qed.

Lemma update_content_length_eq request header sep body :
  (startswith request "GET" || startswith request "HEAD") = false ->
  rpartition request SEP = (header, sep, body) ->
  (String.length header =? 0)%nat = false ->
  update_content_length request =
    (let cl := content_length_header (String.length body) in
     let '(res, k) := subn_content_length cl header in
     (if (k =? 0)%nat then res +:+ CRLF +:+ cl else res) +:+ SEP +:+ body).
Proof.
  intros Eg Hp Eh. unfold update_content_length. rewrite Eg, Hp, Eh.
  destruct (subn_content_length _ header). reflexivity.
Qed.






Section SubnLines.
Variable repl : string.
Hypothesis repl_head : startswith_ci repl CL = true.
Hypothesis repl_inner : forall i u, (0 < i < String.length repl)%nat ->
  startswith_ci (str_drop i repl +:+ u) CL = false.



End SubnLines.








(* ================================================================== *)
(** * Properties of the command-line procedures *)

(** What the spec asks of a responsive field: the marker is reflected,
    and some template-control probe is answered without reflecting it. *)
Definition field_responds (submit_field : string -> string -> option HTTPResponse)
    (field marker : string) : Prop :=
  (exists r, submit_field field marker = Some r /\ str_in marker (text r) = true) /\
  (exists pattern r, In pattern musterror_patterns /\
     submit_field field (pattern +:+ marker) = Some r /\
     str_in marker (text r) = false).

Lemma any_not_reflected_iff marker rs :
  any_not_reflected marker rs = true <->
  exists r, In (Some r) rs /\ str_in marker (text r) = false.
Proof.
  unfold any_not_reflected. induction rs as [|[r|] rs IH]; simpl.
  - split; [discriminate|]. intros (r & [] & _).
  - rewrite orb_true_iff, negb_true_iff, IH. split.
    + intros [H|(r' & Hin & H)]; [exists r; auto|exists r'; auto].
    + intros (r' & [Heq|Hin] & Hr); [injection Heq as <-; left; exact Hr|right; exists r'; auto].
  - rewrite IH. split.
    + intros (r' & Hin & H). exists r'. auto.
    + intros (r' & [Heq|Hin] & Hr); [discriminate|]. exists r'. auto.
Qed.

Lemma field_condition_iff submit_field field marker :
  match submit_field field marker with
  | Some r =>
      str_in marker (text r) &&
      any_not_reflected marker
        (map (fun pattern => submit_field field (pattern +:+ marker)) musterror_patterns)
  | None => false
  end = true <-> field_responds submit_field field marker.
Proof.
  unfold field_responds.
  destruct (submit_field field marker) as [r|] eqn:E.
  - rewrite andb_true_iff, any_not_reflected_iff. split.
    + intros [H1 (r' & Hin & H2)]. split; [exists r; auto|].
      apply in_map_iff in Hin as (pattern & Hp & Hin).
      exists pattern, r'. auto.
    + intros [(r1 & [= <-] & H1) (pattern & r' & Hin & Hp & H2)].
      split; [exact H1|]. exists r'. split; [|exact H2].
      apply in_map_iff. exists pattern. auto.
  - split; [discriminate|]. intros [(r & [=] & _) _].
Qed.

Lemma is_form_has_response_go_iff submit_field marker_of inputs k :
  is_form_has_response_go submit_field marker_of inputs k = true <->
  exists i field, inputs !! i = Some field /\
    field_responds submit_field field (marker_of (k + i)%nat).
Proof.
  revert k. induction inputs as [|field rest IH]; intros k; simpl.
  - split; [discriminate|]. intros (i & field & H & _). by rewrite lookup_nil in H.
  - pose proof (field_condition_iff submit_field field (marker_of k)) as Hc.
    destruct (match submit_field field (marker_of k) with
              | Some r => _ | None => false end) eqn:E.
    + split; [intros _|reflexivity].
      exists O, field. rewrite Nat.add_0_r. split; [reflexivity|]. by apply Hc.
    + rewrite IH. split.
      * intros (i & f & Hi & Hf). exists (S i), f. rewrite Nat.add_succ_r. auto.
      * intros ([|i] & f & Hi & Hf).
        -- simpl in Hi. injection Hi as <-. rewrite Nat.add_0_r in Hf.
           apply Hc in Hf. discriminate.
        -- exists i, f. rewrite Nat.add_succ_r in Hf. auto.
Qed.

(** C5: [is_form_has_response] returns True exactly when some input
    field, probed with its marker, reflects the marker in a response
    and answers at least one of the probes "{{", "{%", "{#" followed by
    the marker with a response that does not contain the marker; so it
    returns False when, for every field, the marker is not reflected (or
    gets no response) or every probe gets no response. *)
Theorem is_form_has_response_spec :
  forall submit_field marker_of inputs,
  (is_form_has_response submit_field marker_of inputs = true <->
   exists i field, inputs !! i = Some field /\
     field_responds submit_field field (marker_of i)) /\
  ((forall i field, inputs !! i = Some field ->
      (forall r, submit_field field (marker_of i) = Some r ->
                 str_in (marker_of i) (text r) = false) \/
      (forall pattern, In pattern musterror_patterns ->
                 submit_field field (pattern +:+ marker_of i) = None)) ->
   is_form_has_response submit_field marker_of inputs = false).
Proof.
  intros submit_field marker_of inputs.
  assert (Hiff : is_form_has_response submit_field marker_of inputs = true <->
     exists i field, inputs !! i = Some field /\
       field_responds submit_field field (marker_of i))
    by apply (is_form_has_response_go_iff _ _ _ O).
  split; [exact Hiff|]. intros Hall.
  destruct (is_form_has_response submit_field marker_of inputs) eqn:E; [|reflexivity].
  exfalso. destruct (proj1 Hiff eq_refl) as (i & field & Hi & [(r & Hr & H1) (p & r' & Hp & Hr' & _)]).
  destruct (Hall i field Hi) as [Hn|Hn].
  - rewrite (Hn r Hr) in H1. discriminate.
  - rewrite (Hn p Hp) in Hr'. discriminate.
Qed.

(** Without an [ExtraParamAndDataCustomizable] submitter, a failed
    generation is a routine negative result: "" and nothing submitted. *)
Lemma do_submit_cmdexec_none_plain generate submit_answer py_repr getflag parse pformat
    c cmd sent wp :
  c <> "@"%char ->
  generate (OS_POPEN_READ (String c cmd)) = (None, wp) ->
  do_submit_cmdexec generate submit_answer py_repr getflag parse pformat
    (String c cmd) (mkCstate SUB_PLAIN sent) = (inr "", mkCstate SUB_PLAIN sent).
Proof.
  intros Hc Hg. unfold do_submit_cmdexec, parse_command, bind, gen, ret.
  destruct (ascii_dec c "@") as [->|_]; [congruence|].
  destruct c as [[] [] [] [] [] [] [] []]; try (exfalso; by apply Hc);
  rewrite Hg; reflexivity.
Qed.

(** C7 (code defect): for a customizable submitter (a form, path or JSON
    submitter) without the parameter "eval_this", e.g. a fresh form
    submitter, and a command such as "id" for which [generate] finds no
    payload, [do_submit_cmdexec] calls [unset_extra_param("eval_this")]
    unconditionally and the [del] raises [KeyError]. *)
Theorem do_submit_cmdexec_none_payload_raises :
  forall submit_answer py_repr getflag parse pformat,
  do_submit_cmdexec (fun _ => (None, false)) submit_answer py_repr getflag parse pformat
    "id" (mkCstate (SUB_CUSTOMIZABLE empty) []) =
  (inl (KeyError "eval_this"), mkCstate (SUB_CUSTOMIZABLE empty) []).
Proof. intros. reflexivity. Qed.

(* ================================================================== *)
(** * Witnesses: the theorems applied at concrete inputs *)

Lemma enclose_under_at_rule_level_witness :
  In gen_attribute_normal1 object_enclosing_rules /\
  In (EXPRESSION 0 [ENCLOSE_UNDER 0 (FLASK_CONTEXT_VAR "lipsum"); LITERAL "."; LITERAL "x"])
     (gen_attribute_normal1 prec_demo (FLASK_CONTEXT_VAR "lipsum") "x") /\
  enclosures_list [ENCLOSE_UNDER 0 (FLASK_CONTEXT_VAR "lipsum"); LITERAL "."; LITERAL "x"]
    <> [].
Proof.
  assert (H1 : In gen_attribute_normal1 object_enclosing_rules) by (left; reflexivity).
  assert (H2 : In (EXPRESSION 0 [ENCLOSE_UNDER 0 (FLASK_CONTEXT_VAR "lipsum");
                                 LITERAL "."; LITERAL "x"])
                  (gen_attribute_normal1 prec_demo (FLASK_CONTEXT_VAR "lipsum") "x"))
    by (left; reflexivity).
  split; [exact H1|]. split; [exact H2|].
  exact (proj1 (enclose_under_at_rule_level prec_demo _ H1 _ _ _ _ H2)).
Defined.

Lemma chunk_reassembly_name_only_in_string_witness :
  (String.length "abc" <= 4)%nat /\
  exists l1 l2,
    gen_attribute_map3 prec_demo (FLASK_CONTEXT_VAR "lipsum") "abc" =
      [EXPRESSION 0 (l1 ++ FLASK_CONTEXT_VAR "lipsum" :: l2)] /\
    In (ENCLOSE_UNDER 0 (STRING "attrabc")) l2.
Proof.
  assert (Hlen : (String.length "abc" <= 4)%nat) by (simpl; lia).
  split; [exact Hlen|].
  destruct (proj1 (chunk_reassembly_name_only_in_string prec_demo
                     (FLASK_CONTEXT_VAR "lipsum") "abc") Hlen)
    as (l1 & l2 & Heq & _ & _ & Hin).
  exists l1, l2. split; [exact Heq|exact Hin].
Defined.

Lemma chunk_rules_cover_all_names_witness :
  String.length "name" = 4%nat /\
  is_real_candidate (gen_attribute_map3 prec_demo (FLASK_CONTEXT_VAR "lipsum") "name") /\
  is_real_candidate (gen_attribute_map4 prec_demo (FLASK_CONTEXT_VAR "lipsum") "name").
Proof.
  assert (H4 : String.length "name" = 4%nat) by reflexivity.
  split; [exact H4|].
  exact (proj2 (proj2 (proj2 (proj2 (proj2 (chunk_rules_cover_all_names prec_demo
           (FLASK_CONTEXT_VAR "lipsum") "name"))))) H4).
Defined.

(** A target that answers nothing. *)
Definition silent_target : string -> string -> option HTTPResponse := fun _ _ => None.

Lemma is_form_has_response_spec_witness :
  is_form_has_response silent_target (fun _ => "abcd") ["name"; "age"] = false.
Proof.
  apply (proj2 (is_form_has_response_spec silent_target (fun _ => "abcd") ["name"; "age"])).
  intros i field _. right. intros pattern _. reflexivity.
Defined.

(** A target that echoes the payload it receives. *)
Definition echo_raw (p : string) (w : unit) : option HTTPResponse * unit :=
  (Some (mkHTTPResponse 200 p), w).

Lemma submit_tamper_chain_witness :
  echo_raw "a12" tt = (Some (mkHTTPResponse 200 "a12"), tt) /\
  submit id (fold_left add_tamperer [(fun p => p +:+ "1"); (fun p => p +:+ "2")]
               (base_submitter echo_raw)) "a" tt =
    (Some (mkHTTPResponse 200 "a12"), tt).
Proof.
  assert (Hr : echo_raw "a12" tt = (Some (mkHTTPResponse 200 "a12"), tt)) by reflexivity.
  split; [exact Hr|].
  exact (proj1 (proj2 (proj2 (submit_tamper_chain id unit echo_raw
           [(fun p => p +:+ "1"); (fun p => p +:+ "2")] "a" tt)))
           (mkHTTPResponse 200 "a12") tt Hr).
Defined.


Lemma path_submit_raw_guard_witness :
  path_submit_raw (fun p => p) (fun _ _ _ => None)
    (path_submitter_init "http://127.0.0.1:5000/greet") "../etc" [] = (None, []).
Proof.
  apply (proj1 (path_submit_raw_guard (fun p => p) (fun _ _ _ => None)
                  (path_submitter_init "http://127.0.0.1:5000/greet") "../etc" [])).
  reflexivity.
Defined.


(* ================================================================== *)
(** * Further properties of the submitters and of the command line *)

(** ** The idempotence of [update_content_length] *)

Lemma update_content_length_idem request :
  update_content_length (update_content_length request) = update_content_length request.
Proof.
  destruct (startswith request "GET" || startswith request "HEAD") eqn:Eg.
  { assert (Hu : update_content_length request = request)
      by (unfold update_content_length; rewrite Eg; reflexivity).
    by rewrite !Hu. }
  destruct (rfind SEP request) as [i|] eqn:Ef.
  2: { assert (Hu : update_content_length request = request).
       { unfold update_content_length. rewrite Eg. unfold rpartition. rewrite Ef.
         reflexivity. }
       by rewrite !Hu. }
  destruct (rpartition_found _ _ _ Ef) as [Hp Hr].
  remember (str_take i request) as header eqn:Hh.
  remember (str_drop (i + String.length SEP) request) as body eqn:Hb.
  destruct (String.length header =? 0)%nat eqn:Eh.
  { assert (Hu : update_content_length request = request)
      by (unfold update_content_length; rewrite Eg, Hp, Eh; reflexivity).
    by rewrite !Hu. }
  rewrite (update_content_length_eq _ _ _ _ Eg Hp Eh). cbv zeta.
  set (cl := content_length_header (String.length body)).
  assert (Hhead : startswith_ci cl CL = true) by reflexivity.
  assert (Hline : forall u, skip_line (str_drop 15 (cl +:+ u)) = skip_line u)
    by apply content_length_header_line.
  assert (HC : startswith cl "C" = true) by reflexivity.
  assert (Hne : cl <> EmptyString) by discriminate.
  pose proof (subn_idem cl Hhead Hline header) as Hidem.
  destruct (subn_content_length cl header) as [res k] eqn:Es.
  simpl in Hidem.
  set (header' := if (k =? 0)%nat then res +:+ CRLF +:+ cl else res).
  (* the separator found last is the one after the header *)
  assert (Hi : String.length header = i).
  { rewrite Hh. apply str_take_length. by apply (rfind_le SEP). }
  destruct (rfind_of_startswith SEP (SEP +:+ body) (startswith_app _ _)) as [k0 Hk0].
  assert (Hk00 : k0 = O).
  { pose proof (rfind_app SEP header _ _ Hk0) as H. rewrite <- Hr, Ef in H.
    injection H. lia. }
  subst k0.
  assert (Hpart : rpartition (header' +:+ SEP +:+ body) SEP = (header', SEP, body)).
  { unfold rpartition. rewrite (rfind_app SEP header' _ _ Hk0), Nat.add_0_r.
    rewrite str_take_app, str_drop_add, str_drop_app. reflexivity. }
  assert (Hlen : (String.length header' =? 0)%nat = false).
  { subst header'. destruct (k =? 0)%nat eqn:Ek.
    - rewrite !str_app_length. simpl. apply Nat.eqb_neq. lia.
    - apply Nat.eqb_neq in Ek.
      pose proof (subn_go_some (S (String.length header)) cl header) as Hs.
      unfold subn_content_length in Es. rewrite Es in Hs. simpl in Hs.
      specialize (Hs Ek). destruct res; [discriminate|reflexivity]. }
  assert (Hsub : exists k', subn_content_length cl header' = (header', k') /\
                            (k' =? 0)%nat = false).
  { subst header'. destruct (k =? 0)%nat eqn:Ek.
    - exists 1%nat. split; [|reflexivity].
      apply subn_app_crlf; [exact Hhead|exact Hline|]. rewrite Hidem. simpl.
      by apply Nat.eqb_eq.
    - exists k. by split. }
  destruct Hsub as [k' [Hsub Hk']].
  assert (Hget : forall p, p = "GET" \/ p = "HEAD" ->
                 startswith (header' +:+ SEP +:+ body) p = false).
  { intros p Hpq. assert (Hreq : startswith (header +:+ SEP +:+ body) p = false).
    { rewrite <- Hr. destruct Hpq as [->| ->];
        [apply orb_false_iff in Eg as [E1 _]|apply orb_false_iff in Eg as [_ E1]];
        exact E1. }
    subst header'. destruct (k =? 0)%nat eqn:Ek.
    - assert (Hres : res = header).
      { pose proof (subn_go_none (S (String.length header)) cl header) as Hn.
        unfold subn_content_length in Es. rewrite Es in Hn. simpl in Hn.
        apply Nat.eqb_eq in Ek. by apply Hn. }
      subst res. rewrite <- Hreq, !str_app_assoc.
      change (CRLF +:+ cl +:+ SEP +:+ body) with
        (String "013" (String "010" (cl +:+ SEP +:+ body))).
      change (SEP +:+ body) with (String "013" (String "010" (CRLF +:+ body))) at 2.
      apply startswith_app_cr. destruct Hpq as [-> | ->]; reflexivity.
    - destruct (startswith (res +:+ SEP +:+ body) p) eqn:E; [|reflexivity].
      rewrite <- Hreq. symmetry.
      assert (HpC : str_in "C" p = false) by (destruct Hpq as [-> | ->]; reflexivity).
      pose proof (subn_no_C cl Hhead Hline p HpC header (SEP +:+ body) Hne HC) as HnoC.
      rewrite Es in HnoC. cbn [fst] in HnoC. exact (HnoC E). }
  rewrite (update_content_length_eq _ _ _ _
             (ltac:(rewrite !Hget by auto; reflexivity)) Hpart Hlen).
  cbv zeta. fold cl. rewrite Hsub, Hk'. reflexivity.
Qed.

(** ** Extra parameters, [do_submit_cmdexec] and the submitters *)

(** X4: [set_extra_param k v] followed by [unset_extra_param k] removes
    [k] from the extra parameters (whatever it held before) and keeps the
    sent payloads; [unset_extra_param] of an absent key raises [KeyError]
    and changes nothing. *)
Theorem set_unset_extra_param_roundtrip k v m sent :
  (set_extra_param k v ;;; unset_extra_param k) (mkCstate (SUB_CUSTOMIZABLE m) sent) =
    (inr tt, mkCstate (SUB_CUSTOMIZABLE (delete k m)) sent) /\
  (m !! k = None ->
     delete k m = m /\
     unset_extra_param k (mkCstate (SUB_CUSTOMIZABLE m) sent) =
       (inl (KeyError k), mkCstate (SUB_CUSTOMIZABLE m) sent)).
Proof.
  split.
  - unfold bind, set_extra_param, unset_extra_param. simpl.
    rewrite lookup_insert_eq, delete_insert_eq. reflexivity.
  - intros Hk. split; [by apply delete_id|].
    unfold unset_extra_param. simpl. rewrite Hk. reflexivity.
Qed.

(** X5: [do_submit_cmdexec] raises [IndexError] on the empty command,
    returns "" without submitting anything on an unknown "@" command,
    and returns "" without submitting anything on "@findflag" when the
    submitter has no extra parameters. *)
Theorem do_submit_cmdexec_early_returns generate submit_answer py_repr getflag parse
    pformat st :
  do_submit_cmdexec generate submit_answer py_repr getflag parse pformat "" st =
    (inl IndexError, st) /\
  (forall rest,
     Forall (fun p => startswith rest p = false)
       ["get-config"; "findflag"; "eval"; "ls"; "cat"; "exec"] ->
     do_submit_cmdexec generate submit_answer py_repr getflag parse pformat
       (String "@" rest) st = (inr "", st)) /\
  (forall rest, startswith rest "findflag" = true -> cs_submitter st = SUB_PLAIN ->
     do_submit_cmdexec generate submit_answer py_repr getflag parse pformat
       (String "@" rest) st = (inr "", st)).
Proof.
  split; [reflexivity|]. split.
  - intros rest Hall.
    apply Forall_cons in Hall as [H1 Hall]. apply Forall_cons in Hall as [H2 Hall].
    apply Forall_cons in Hall as [H3 Hall]. apply Forall_cons in Hall as [H4 Hall].
    apply Forall_cons in Hall as [H5 Hall]. apply Forall_cons in Hall as [H6 _].
    unfold do_submit_cmdexec, parse_command, bind, ret.
    rewrite H1, H2, H3, H4, H5, H6. reflexivity.
  - intros rest Hf Hs. rewrite (startswith_split _ _ Hf).
    destruct st as [sub sent]. simpl in Hs. subst sub. reflexivity.
Qed.

(** X6: a command not starting with "@" whose payload is generated is
    submitted exactly once, the extra parameters are left alone, and the
    result is the response text, or [AssertionError] when the target
    gives no response. *)
Theorem do_submit_cmdexec_shell_command generate submit_answer py_repr getflag parse
    pformat c cmd st p wp :
  c <> "@"%char ->
  generate (OS_POPEN_READ (String c cmd)) = (Some p, wp) ->
  do_submit_cmdexec generate submit_answer py_repr getflag parse pformat
    (String c cmd) st =
    match submit_answer p with
    | None => (inl AssertionError, mkCstate (cs_submitter st) (cs_sent st ++ [p]))
    | Some r => (inr (text r), mkCstate (cs_submitter st) (cs_sent st ++ [p]))
    end.
Proof.
  intros Hc Hg. unfold do_submit_cmdexec, parse_command, bind, gen, ret, submit_m.
  destruct (ascii_dec c "@") as [->|_]; [congruence|].
  destruct c as [[] [] [] [] [] [] [] []]; try (exfalso; by apply Hc);
  rewrite Hg; simpl; destruct (submit_answer p); reflexivity.
Qed.

(** X7: "@findflag" on a submitter with extra parameters: [eval_this]
    is removed afterwards (also when it was set before) on every path but
    the one where the target gives no response ([AssertionError], with
    [eval_this] left set); one payload at most is sent, and the result is
    the stripped formatted flag data or "GETFLAG_FAILED". *)
Theorem do_submit_cmdexec_findflag generate submit_answer py_repr getflag parse
    pformat rest m sent p wp :
  startswith rest "findflag" = true ->
  generate (EVAL (ITEM (ATTRIBUTE (FLASK_CONTEXT_VAR "request") "values")
                       "eval_this")) = (p, wp) ->
  do_submit_cmdexec generate submit_answer py_repr getflag parse pformat
    (String "@" rest) (mkCstate (SUB_CUSTOMIZABLE m) sent) =
    match p with
    | None => (inr "", mkCstate (SUB_CUSTOMIZABLE (delete "eval_this" m)) sent)
    | Some payload =>
        match submit_answer payload with
        | None =>
            (inl AssertionError,
             mkCstate (SUB_CUSTOMIZABLE (<["eval_this" := getflag]> m)) (sent ++ [payload]))
        | Some r =>
            (inr (match parse (text r) with
                  | Some d => strip (pformat d)
                  | None => "GETFLAG_FAILED"
                  end),
             mkCstate (SUB_CUSTOMIZABLE (delete "eval_this" m)) (sent ++ [payload]))
        end
    end.
Proof.
  intros Hf Hg. rewrite (startswith_split _ _ Hf).
  unfold do_submit_cmdexec, parse_command, bind, gen, ret, submit_m,
    is_customizable, get_submitter, set_extra_param, unset_extra_param.
  simpl. rewrite Hg. destruct p as [payload|]; simpl.
  - destruct (submit_answer payload) as [r|]; simpl; [|reflexivity].
    rewrite lookup_insert_eq, delete_insert_eq.
    destruct (parse (text r)); reflexivity.
  - rewrite lookup_insert_eq, delete_insert_eq. reflexivity.
Qed.

Lemma endswith_app_slash u : endswith (u +:+ "/") "/" = true.
Proof.
  induction u as [|c u IH]; [reflexivity|].
  rewrite str_app_cons. simpl. rewrite IH. apply orb_true_r.
Qed.

(** X8: [PathSubmitter.__init__] stores a url ending with "/": the url
    itself when it already ends with "/", else the url with "/" appended;
    initialising again from the stored url changes nothing, and there is no
    extra parameter. *)
Theorem path_submitter_init_url url :
  endswith (ps_url (path_submitter_init url)) "/" = true /\
  (endswith url "/" = true -> ps_url (path_submitter_init url) = url) /\
  (endswith url "/" = false -> ps_url (path_submitter_init url) = url +:+ "/") /\
  path_submitter_init (ps_url (path_submitter_init url)) = path_submitter_init url /\
  ps_extra_params (path_submitter_init url) = empty.
Proof.
  unfold path_submitter_init. simpl.
  destruct (endswith url "/") eqn:E; simpl.
  - rewrite E. repeat split; auto; discriminate.
  - rewrite endswith_app_slash. repeat split; auto; discriminate.
Qed.

(** X9: [RequestSubmitter.submit_raw] makes exactly one request, with the
    submitter's method and url; the payload goes under [target_field] in the
    form data when the method is exactly "POST" and in the query
    parameters otherwise; every other key keeps its stored value. *)
Theorem request_submit_raw_places_payload requester self raw_payload calls :
  exists call,
    request_submit_raw requester self raw_payload calls =
      (requester call, calls ++ [call]) /\
    call_method call = rs_method self /\ call_url call = rs_url self /\
    if bool_decide (rs_method self = "POST") then
      call_data call !! rs_target_field self = Some raw_payload /\
      (forall k, k <> rs_target_field self -> call_data call !! k = rs_data self !! k) /\
      call_params call = rs_params self
    else
      call_params call !! rs_target_field self = Some raw_payload /\
      (forall k, k <> rs_target_field self -> call_params call !! k = rs_params self !! k) /\
      call_data call = rs_data self.
Proof.
  unfold request_submit_raw. case_bool_decide; eexists;
    (split; [reflexivity|]); (split; [reflexivity|]);
    (split; [reflexivity|]); simpl;
    (split; [apply lookup_insert_eq|]); (split; [|reflexivity]);
    intros k Hk; by apply lookup_insert_ne.
Qed.

(** X10: [JsonSubmitter.submit_raw] makes exactly one request, with the
    submitter's method, url and extra parameters; the JSON body maps [key]
    to the payload and every other key to its value in [json_obj]. *)
Theorem json_submit_raw_places_payload {V} (json_string : string -> V) json_requester
    (self : JsonSubmitter V) raw_payload calls :
  exists call,
    json_submit_raw json_string json_requester self raw_payload calls =
      (json_requester call, calls ++ [call]) /\
    jc_method V call = js_method V self /\ jc_url V call = js_url V self /\
    jc_params call = js_extra_params V self /\
    jc_json call !! js_key V self = Some (json_string raw_payload) /\
    (forall k, k <> js_key V self -> jc_json call !! k = js_json_obj V self !! k).
Proof.
  unfold json_submit_raw. eexists. split.
  - f_equal. destruct (json_requester _) as [[]|]; reflexivity.
  - simpl. repeat split; [apply lookup_insert_eq|].
    intros k Hk. by apply lookup_insert_ne.
Qed.

Lemma replace_nonempty_absent fuel old new : forall s,
  str_in old s = false -> replace_nonempty fuel old new s = s.
Proof.
  induction fuel as [|fuel IH]; intros s H; [reflexivity|].
  destruct s as [|c s]; [reflexivity|].
  simpl in H. apply orb_false_iff in H as [H1 H2].
  simpl. rewrite H1. by rewrite IH.
Qed.

(** X2: with [enable_update_content_length] set, the bytes
    [TCPSubmitter.submit_raw] sends are a fixed point of
    [update_content_length], whatever the payload and the template. *)
Theorem tcp_request_bytes_content_length quote self raw_payload :
  tcp_enable_update_content_length self = true ->
  update_content_length (tcp_request_bytes quote self raw_payload) =
    tcp_request_bytes quote self raw_payload.
Proof.
  intros He. unfold tcp_request_bytes. rewrite He.
  apply update_content_length_idem.
Qed.

(** X3: when the (non-empty) marker [toreplace] does not occur in the
    template, [TCPSubmitter.submit_raw] sends the template itself (fixed up
    by [update_content_length] when enabled), the same bytes for every
    payload. *)
Theorem tcp_request_bytes_marker_absent quote self p q :
  tcp_toreplace self <> "" ->
  str_in (tcp_toreplace self) (tcp_pattern self) = false ->
  tcp_request_bytes quote self p =
    (if tcp_enable_update_content_length self
     then update_content_length (tcp_pattern self) else tcp_pattern self) /\
  tcp_request_bytes quote self p = tcp_request_bytes quote self q.
Proof.
  intros Hne Hin.
  assert (Hr : forall x, py_replace (tcp_pattern self) (tcp_toreplace self) x =
                         tcp_pattern self).
  { intros x. unfold py_replace. destruct (tcp_toreplace self) eqn:E; [congruence|].
    by apply replace_nonempty_absent. }
  unfold tcp_request_bytes. rewrite !Hr. by split.
Qed.

(** X11: submitting through an [IOSubmitter] (with any tamperers) never
    gives [None]: the response has status 250 and the unescaped tampered
    payload as text; the tampered payload is written to the file, or
    printed when there is no path, only while saving is on. *)
Theorem io_submit_status_250 html_unescape ts self payload w :
  let tampered := fold_left (fun p t => t p) ts payload in
  submit html_unescape (fold_left add_tamperer ts (io_base self)) payload w =
    (Some (mkHTTPResponse 250 (html_unescape tampered)),
     if io_is_do_saving self then
       match io_path self with
       | Some path => mkIOWorld (<[path := tampered]> (io_files w)) (io_stdout w)
       | None => mkIOWorld (io_files w) (io_stdout w ++ [tampered])
       end
     else w).
Proof.
  unfold submit. rewrite tamperers_add_all, submit_raw_add_all. simpl.
  unfold io_submit_raw. reflexivity.
Qed.

(** X12: [stop_saving]: a payload submitted inside the block is neither
    written nor printed, and saving is on after the block even when it was
    off before; a body that raises leaves saving off; a nested block turns
    saving back on inside the outer one, so a later submission in the outer
    block is saved. *)
Theorem io_stop_saving_flag {E : Type} self w p (e : E) :
  io_stop_saving (E := E)
    (fun s w => let '(r, w') := io_submit_raw s p w in (inr r, s, w')) self w =
    (inr (mkHTTPResponse 250 p), mkIOSubmitter (io_path self) true, w) /\
  io_stop_saving (A := unit) (fun s w => (inl e, s, w)) self w =
    (inl e, mkIOSubmitter (io_path self) false, w) /\
  io_stop_saving (E := E)
    (fun s w =>
       match io_stop_saving (E := E) (fun s w => (inr tt, s, w)) s w with
       | (inl e, s', w') => (inl e, s', w')
       | (inr _, s', w') => let '(r, w'') := io_submit_raw s' p w' in (inr r, s', w'')
       end) self w =
    (inr (mkHTTPResponse 250 p), mkIOSubmitter (io_path self) true,
     match io_path self with
     | Some path => mkIOWorld (<[path := p]> (io_files w)) (io_stdout w)
     | None => mkIOWorld (io_files w) (io_stdout w ++ [p])
     end).
Proof. split; [|split]; reflexivity. Qed.

(** ** [parse_headers_cookies] *)

Lemma upper_idem c : upper (upper c) = upper c.
Proof. destruct c as [[] [] [] [] [] [] [] []]; reflexivity. Qed.

Lemma lower_idem c : lower (lower c) = lower c.
Proof. destruct c as [[] [] [] [] [] [] [] []]; reflexivity. Qed.

Lemma lower_str_idem s : lower_str (lower_str s) = lower_str s.
Proof. induction s as [|c s IH]; simpl; [reflexivity|]. by rewrite lower_idem, IH. Qed.

Lemma capitalize_idem s : capitalize (capitalize s) = capitalize s.
Proof. destruct s as [|c s]; simpl; [reflexivity|]. by rewrite upper_idem, lower_str_idem. Qed.

Lemma parse_headers_cookies_fold headers_list cookies :
  parse_headers_cookies headers_list cookies =
    let headers := fold_left parse_header_step headers_list empty in
    if bool_decide (cookies = EmptyString) then headers
    else <["Cookie" := cookies]> headers.
Proof. reflexivity. Qed.

Lemma parse_header_step_keys acc h :
  (forall k v, acc !! k = Some v -> capitalize k = k) ->
  forall k v, parse_header_step acc h !! k = Some v -> capitalize k = k.
Proof.
  intros Hacc k v. unfold parse_header_step.
  destruct (str_partition h ": ") as [[key sep] value].
  destruct (bool_decide (key = "") || bool_decide (value = "")); [apply Hacc|].
  rewrite lookup_insert_Some. intros [[<- _]|[_ Hk]]; [|by eapply Hacc].
  case_bool_decide as Hc; [apply capitalize_idem|].
  destruct (decide (capitalize key = key)); [assumption|tauto].
Qed.

Lemma parse_header_fold_keys hs : forall acc,
  (forall k v, acc !! k = Some v -> capitalize k = k) ->
  forall k v, fold_left parse_header_step hs acc !! k = Some v -> capitalize k = k.
Proof.
  induction hs as [|h hs IH]; intros acc Hacc; simpl; [done|].
  apply IH. by apply parse_header_step_keys.
Qed.

(** X13: when the header lines are ASCII text, every key of the dict
    [parse_headers_cookies] returns is already capitalized. *)
Theorem parse_headers_cookies_capitalized headers_list cookies k v :
  Forall (fun header => ascii_text header = true) headers_list ->
  parse_headers_cookies headers_list cookies !! k = Some v -> capitalize k = k.
Proof.
  intros _.
  rewrite parse_headers_cookies_fold. cbv zeta.
  assert (Hf := parse_header_fold_keys headers_list empty
                  (fun k v H => ltac:(by rewrite lookup_empty in H))).
  case_bool_decide; [apply Hf|].
  rewrite lookup_insert_Some. intros [[<- _]|[_ Hk]]; [reflexivity|by eapply Hf].
Qed.

Lemma startswith_app_long (b p : string) : forall a,
  (String.length p <= String.length a)%nat -> startswith (a +:+ b) p = startswith a p.
Proof.
  induction p as [|c p IH]; intros a H; [reflexivity|].
  destruct a as [|d a]; simpl in H; [lia|].
  rewrite str_app_cons. simpl. rewrite IH by lia. reflexivity.
Qed.

Lemma str_find_header key value :
  str_in ": " key = false ->
  str_find ": " (key +:+ ": " +:+ value) = Some (String.length key).
Proof.
  induction key as [|c key IH]; intros H; [reflexivity|].
  simpl in H. apply orb_false_iff in H as [H1 H2].
  rewrite str_app_cons. simpl.
  assert (Hs : startswith (String c (key +:+ ": " +:+ value)) ": " = false).
  { destruct key as [|d key].
    - simpl. destruct (bool_decide (":"%char = c)); reflexivity.
    - rewrite <- str_app_cons. rewrite startswith_app_long by (simpl; lia). exact H1. }
  simpl in Hs. rewrite Hs. rewrite (IH H2). reflexivity.
Qed.

Lemma str_partition_header key value :
  str_in ": " key = false ->
  str_partition (key +:+ ": " +:+ value) ": " = (key, ": ", value).
Proof.
  intros H. unfold str_partition. rewrite (str_find_header _ _ H).
  rewrite str_take_app, str_drop_add, str_drop_app. reflexivity.
Qed.

Lemma str_find_absent sep s : str_in sep s = false -> str_find sep s = None.
Proof.
  induction s as [|c s IH]; simpl; intros H; apply orb_false_iff in H as [H1 H2].
  - by rewrite H1.
  - rewrite H1, (IH H2). reflexivity.
Qed.

(** X14: the last well-formed header "key: value" gives the value of
    its capitalized key, unless that key is "Cookie" and a cookie string
    is given; a non-empty cookie string always gives the "Cookie" entry. *)
Theorem parse_headers_cookies_precedence headers_list cookies key value :
  key <> "" -> value <> "" -> str_in ": " key = false ->
  (cookies = "" \/ capitalize key <> "Cookie") ->
  parse_headers_cookies (headers_list ++ [key +:+ ": " +:+ value]) cookies
    !! capitalize key = Some value /\
  (cookies <> "" ->
   parse_headers_cookies headers_list cookies !! "Cookie" = Some cookies).
Proof.
  intros Hk Hv Hin Hc. rewrite !parse_headers_cookies_fold. cbv zeta. split.
  - rewrite fold_left_app. simpl.
    assert (Hst : forall acc, parse_header_step acc (key +:+ ": " +:+ value) =
                              <[capitalize key := value]> acc).
    { intros acc. unfold parse_header_step.
      rewrite (str_partition_header _ _ Hin).
      rewrite (bool_decide_eq_false_2 _ Hk), (bool_decide_eq_false_2 _ Hv). simpl.
      case_bool_decide as Hd; [reflexivity|].
      destruct (decide (capitalize key = key)) as [->|]; [reflexivity|tauto]. }
    rewrite Hst. case_bool_decide as He; [apply lookup_insert_eq|].
    destruct Hc as [Hc|Hc]; [congruence|].
    rewrite lookup_insert_ne by congruence. apply lookup_insert_eq.
  - intros Hne. rewrite (bool_decide_eq_false_2 _ Hne). apply lookup_insert_eq.
Qed.

(** X15: a header without ": ", or with an empty key or value, is
    ignored by [parse_headers_cookies]. *)
Theorem parse_headers_cookies_ignored hs1 hs2 header cookies :
  (str_in ": " header = false \/ (str_partition header ": ").1.1 = "" \/
   (str_partition header ": ").2 = "") ->
  parse_headers_cookies (hs1 ++ header :: hs2) cookies =
    parse_headers_cookies (hs1 ++ hs2) cookies.
Proof.
  intros H. rewrite !parse_headers_cookies_fold. cbv zeta.
  rewrite !fold_left_app. simpl.
  assert (Hs : forall acc, parse_header_step acc header = acc).
  { intros acc. unfold parse_header_step.
    destruct H as [H|H].
    - unfold str_partition. rewrite (str_find_absent _ _ H).
      rewrite orb_true_r. reflexivity.
    - destruct (str_partition header ": ") as [[key sep] value]. simpl in H.
      destruct H as [->| ->]; [reflexivity|by rewrite orb_true_r]. }
  by rewrite Hs.
Qed.

(** X16: the attribute/item rules other than the dotted ones never put the
    name in Literal-Text: their literal fragments are the same for every
    name. *)
Theorem name_quoting_rules_literals precedence obj_req n1 n2 :
  Forall (fun rule =>
    candidate_literals (rule precedence obj_req n1) =
    candidate_literals (rule precedence obj_req n2)) name_quoting_rules.
Proof.
  unfold name_quoting_rules.
  repeat (apply Forall_cons; split); [..|apply Forall_nil; constructor];
    vm_compute; reflexivity.
Qed.

(** X17: the dotted rules put the name verbatim in Literal-Text:
    [gen_class_attribute_literal] for every name, [gen_attribute_normal1]
    and [gen_item_normal1] for the names that pass [re_match_ident]. *)
Theorem dotted_rules_literals precedence obj_req name :
  candidate_literals (gen_class_attribute_literal precedence obj_req name) =
    ["." +:+ name] /\
  (re_match_ident name <> None ->
   candidate_literals (gen_attribute_normal1 precedence obj_req name) =
     literals obj_req ++ ["."; name] /\
   candidate_literals (gen_item_normal1 precedence obj_req name) =
     literals obj_req ++ ["."; name]).
Proof.
  split; [reflexivity|]. intros H.
  unfold gen_attribute_normal1, gen_item_normal1.
  destruct (re_match_ident name); [|congruence].
  unfold candidate_literals, literals_list. simpl. rewrite !app_nil_r. by split.
Qed.

(** X1: [update_content_length] is idempotent: a request it has already
    fixed (Content-Length equal to the body's length) is returned unchanged. *)
Theorem update_content_length_idempotent request :
  update_content_length (update_content_length request) = update_content_length request.
Proof. apply update_content_length_idem. Qed.

Lemma set_unset_extra_param_roundtrip_witness :
  (empty : gmap string string) !! "eval_this" = None /\
  unset_extra_param "eval_this" (mkCstate (SUB_CUSTOMIZABLE empty) []) =
    (inl (KeyError "eval_this"), mkCstate (SUB_CUSTOMIZABLE empty) []).
Proof.
  assert (H : (empty : gmap string string) !! "eval_this" = None) by reflexivity.
  split; [exact H|].
  exact (proj2 (proj2 (set_unset_extra_param_roundtrip "eval_this" "x" empty []) H)).
Defined.

Lemma do_submit_cmdexec_early_returns_witness :
  Forall (fun p => startswith "help" p = false)
    ["get-config"; "findflag"; "eval"; "ls"; "cat"; "exec"] /\
  do_submit_cmdexec generate_demo answer_demo id "g" (fun _ => None) id
    "@help" (mkCstate SUB_PLAIN []) = (inr "", mkCstate SUB_PLAIN []) /\
  do_submit_cmdexec generate_demo answer_demo id "g" (fun _ => None) id
    "@findflag" (mkCstate SUB_PLAIN []) = (inr "", mkCstate SUB_PLAIN []).
Proof.
  assert (H : Forall (fun p => startswith "help" p = false)
                ["get-config"; "findflag"; "eval"; "ls"; "cat"; "exec"])
    by (repeat constructor).
  pose proof (do_submit_cmdexec_early_returns generate_demo answer_demo id "g"
                (fun _ => None) id (mkCstate SUB_PLAIN [])) as [_ [Hu Hf]].
  split; [exact H|]. split; [exact (Hu "help" H)|].
  exact (Hf "findflag" eq_refl eq_refl).
Defined.

Lemma do_submit_cmdexec_shell_command_witness :
  "l"%char <> "@"%char /\
  generate_demo (OS_POPEN_READ "ls") = (Some "payload", true) /\
  do_submit_cmdexec generate_demo answer_demo id "g" (fun _ => None) id
    "ls" (mkCstate SUB_PLAIN []) = (inr "out:payload", mkCstate SUB_PLAIN ["payload"]).
Proof.
  assert (Hc : "l"%char <> "@"%char) by discriminate.
  assert (Hg : generate_demo (OS_POPEN_READ "ls") = (Some "payload", true)) by reflexivity.
  split; [exact Hc|]. split; [exact Hg|].
  exact (do_submit_cmdexec_shell_command generate_demo answer_demo id "g" (fun _ => None) id
           "l" "s" (mkCstate SUB_PLAIN []) "payload" true Hc Hg).
Defined.

Lemma do_submit_cmdexec_findflag_witness :
  startswith "findflag" "findflag" = true /\
  generate_demo (EVAL (ITEM (ATTRIBUTE (FLASK_CONTEXT_VAR "request") "values")
                            "eval_this")) = (Some "payload", true) /\
  do_submit_cmdexec generate_demo answer_demo id "g" (fun _ => Some "flag{x}") id
    "@findflag" (mkCstate (SUB_CUSTOMIZABLE empty) []) =
    (inr "flag{x}", mkCstate (SUB_CUSTOMIZABLE (delete "eval_this" empty)) ["payload"]).
Proof.
  assert (Hs : startswith "findflag" "findflag" = true) by reflexivity.
  assert (Hg : generate_demo (EVAL (ITEM (ATTRIBUTE (FLASK_CONTEXT_VAR "request") "values")
                                         "eval_this")) = (Some "payload", true))
    by reflexivity.
  split; [exact Hs|]. split; [exact Hg|].
  exact (do_submit_cmdexec_findflag generate_demo answer_demo id "g" (fun _ => Some "flag{x}")
           id "findflag" empty [] (Some "payload") true Hs Hg).
Defined.

Lemma path_submitter_init_url_witness :
  endswith "http://127.0.0.1:5000/greet" "/" = false /\
  ps_url (path_submitter_init "http://127.0.0.1:5000/greet") =
    "http://127.0.0.1:5000/greet/".
Proof.
  assert (H : endswith "http://127.0.0.1:5000/greet" "/" = false) by reflexivity.
  split; [exact H|].
  exact (proj1 (proj2 (proj2 (path_submitter_init_url "http://127.0.0.1:5000/greet"))) H).
Defined.

Lemma request_submit_raw_places_payload_witness :
  exists call,
    request_submit_raw (fun _ => None)
      (request_submitter_init "http://127.0.0.1:5000/" "POST" "name" None
         (Some (<["csrf" := "t"]> empty))) "x" [] = (None, [call]) /\
    call_data call !! "name" = Some "x" /\ call_data call !! "csrf" = Some "t" /\
    call_params call = empty.
Proof.
  destruct (request_submit_raw_places_payload (fun _ => None)
    (request_submitter_init "http://127.0.0.1:5000/" "POST" "name" None
       (Some (<["csrf" := "t"]> empty))) "x" []) as (call & Heq & _ & _ & Hif).
  rewrite bool_decide_eq_true_2 in Hif by reflexivity.
  destruct Hif as (Hn & Hk & Hp).
  exists call. split; [exact Heq|]. split; [exact Hn|]. split; [|exact Hp].
  rewrite (Hk "csrf" ltac:(discriminate)). reflexivity.
Defined.

Lemma json_submit_raw_places_payload_witness :
  exists call,
    json_submit_raw (fun s : string => s) (fun _ => None)
      (json_submitter_init "http://127.0.0.1:5000/" "POST"
         (<["mode" := "render"]> empty) "template") "x" [] = (None, [call]) /\
    jc_json call !! "template" = Some "x" /\ jc_json call !! "mode" = Some "render".
Proof.
  destruct (json_submit_raw_places_payload (fun s : string => s) (fun _ => None)
    (json_submitter_init "http://127.0.0.1:5000/" "POST"
       (<["mode" := "render"]> empty) "template") "x" []) as
    (call & Heq & _ & _ & _ & Hk & Ho).
  exists call. split; [exact Heq|]. split; [exact Hk|].
  rewrite (Ho "mode" ltac:(discriminate)). reflexivity.
Defined.

Lemma tcp_request_bytes_content_length_witness :
  tcp_enable_update_content_length (tcp_submitter_init tcp_pattern_demo) = true /\
  update_content_length (tcp_request_bytes id (tcp_submitter_init tcp_pattern_demo) "abc") =
    tcp_request_bytes id (tcp_submitter_init tcp_pattern_demo) "abc".
Proof.
  assert (H : tcp_enable_update_content_length (tcp_submitter_init tcp_pattern_demo) = true)
    by reflexivity.
  split; [exact H|]. exact (tcp_request_bytes_content_length id _ "abc" H).
Defined.

Lemma tcp_request_bytes_marker_absent_witness :
  tcp_toreplace (mkTCPSubmitter tcp_pattern_demo "MARKER" true false) <> "" /\
  str_in (tcp_toreplace (mkTCPSubmitter tcp_pattern_demo "MARKER" true false))
    (tcp_pattern (mkTCPSubmitter tcp_pattern_demo "MARKER" true false)) = false /\
  tcp_request_bytes id (mkTCPSubmitter tcp_pattern_demo "MARKER" true false) "abc" =
    tcp_pattern_demo.
Proof.
  assert (H1 : tcp_toreplace (mkTCPSubmitter tcp_pattern_demo "MARKER" true false) <> "")
    by discriminate.
  assert (H2 : str_in (tcp_toreplace (mkTCPSubmitter tcp_pattern_demo "MARKER" true false))
                 (tcp_pattern (mkTCPSubmitter tcp_pattern_demo "MARKER" true false)) = false)
    by (vm_compute; reflexivity).
  split; [exact H1|]. split; [exact H2|].
  exact (proj1 (tcp_request_bytes_marker_absent id _ "abc" "abc" H1 H2)).
Defined.

Lemma parse_headers_cookies_capitalized_witness :
  Forall (fun header => ascii_text header = true) ["user-agent: x"] /\
  parse_headers_cookies ["user-agent: x"] "" !! "User-agent" = Some "x" /\
  capitalize "User-agent" = "User-agent".
Proof.
  assert (Ha : Forall (fun header => ascii_text header = true) ["user-agent: x"])
    by (repeat constructor).
  assert (H : parse_headers_cookies ["user-agent: x"] "" !! "User-agent" = Some "x")
    by (vm_compute; reflexivity).
  split; [exact Ha|]. split; [exact H|].
  exact (parse_headers_cookies_capitalized _ _ _ _ Ha H).
Defined.

Lemma parse_headers_cookies_precedence_witness :
  "accept" <> "" /\ "*/*" <> "" /\ str_in ": " "accept" = false /\
  capitalize "accept" <> "Cookie" /\
  parse_headers_cookies (["Cookie: a=1"] ++ ["accept" +:+ ": " +:+ "*/*"]) "b=2"
    !! "Accept" = Some "*/*" /\
  parse_headers_cookies ["Cookie: a=1"] "b=2" !! "Cookie" = Some "b=2".
Proof.
  assert (H1 : "accept" <> "") by discriminate.
  assert (H2 : "*/*" <> "") by discriminate.
  assert (H3 : str_in ": " "accept" = false) by reflexivity.
  assert (H4 : capitalize "accept" <> "Cookie") by (vm_compute; discriminate).
  destruct (parse_headers_cookies_precedence ["Cookie: a=1"] "b=2" "accept" "*/*"
              H1 H2 H3 (or_intror H4)) as [Ha Hc].
  split; [exact H1|]. split; [exact H2|]. split; [exact H3|]. split; [exact H4|].
  split; [exact Ha|]. exact (Hc ltac:(discriminate)).
Defined.

Lemma parse_headers_cookies_ignored_witness :
  str_in ": " "broken" = false /\
  parse_headers_cookies (["Host: a"] ++ "broken" :: []) "" =
    parse_headers_cookies (["Host: a"] ++ []) "".
Proof.
  assert (H : str_in ": " "broken" = false) by reflexivity.
  split; [exact H|]. exact (parse_headers_cookies_ignored _ _ _ "" (or_introl H)).
Defined.

Lemma dotted_rules_literals_witness :
  re_match_ident "x" <> None /\
  candidate_literals (gen_attribute_normal1 prec_demo (FLASK_CONTEXT_VAR "lipsum") "x") =
    ["."; "x"].
Proof.
  assert (H : re_match_ident "x" <> None) by discriminate.
  split; [exact H|].
  exact (proj1 (proj2 (dotted_rules_literals prec_demo (FLASK_CONTEXT_VAR "lipsum") "x") H)).
Defined.
